(** * The SMTP notification action of Fail2Ban ([config/action.d/smtp.py])

    A shallow embedding of [SMTPAction]: the message templates, the
    composition of the start, stop and ban notifications, and the transport
    routine [_sendMessage] with its try / except / else / finally structure.

    Python dictionaries are finite maps with string keys, exceptions are
    values of an outcome type, and the calls made to the SMTP session and the
    records handed to the logger are collected, in order, in an event list. *)

From Stdlib Require Import Ascii String.
From stdpp Require Import gmap strings list fin_maps pretty.

Local Open Scope Z_scope.

(** ** Python values, exceptions and outcomes *)

(** The values an event dictionary holds. *)
Inductive value :=
| VNone
| VInt (n : Z)
| VStr (s : string).

(** The exception classes that occur: those of [smtplib] (all but [OSError]
    below [SMTPException]) and those raised by the [%] operator. *)
Inductive exn_class :=
| SMTPException
| SMTPServerDisconnected
| SMTPRecipientsRefused
| SMTPSenderRefused
| SMTPDataError
| SMTPConnectError
| SMTPHeloError
| SMTPAuthenticationError
| OSError
| KeyError
| TypeError
| ValueError.

(** An exception: its class and what it carries. [detail] is the key of a
    [KeyError], the name of the type of the value a [TypeError] rejects, and
    the text of the reply for an exception of the session. *)
Record exn := Exn { class : exn_class; detail : string }.

Inductive outcome (A : Type) :=
| Return (a : A)
| Raise (e : exn).
Arguments Return {A} a.
Arguments Raise {A} e.

(** [isinstance(e, smtplib.SMTPException)]. *)
Definition is_SMTPException (c : exn_class) : bool :=
  match c with
  | SMTPException | SMTPServerDisconnected | SMTPRecipientsRefused
  | SMTPSenderRefused | SMTPDataError | SMTPConnectError | SMTPHeloError
  | SMTPAuthenticationError => true
  | OSError | KeyError | TypeError | ValueError => false
  end.

(** ** String helpers *)

Definition NL : string := String "010"%char "".

(** [NL.join(lines)]: the lines of a triple-quoted literal. *)
Fixpoint unlines (ls : list string) : string :=
  match ls with
  | [] => ""
  | [l] => l
  | l :: ls' => l +:+ NL +:+ unlines ls'
  end.

(** [str.split(sep)] for a non-empty separator: [skip] counts the characters
    of a separator occurrence that are still to be dropped, [cur] is the
    field read so far. *)
Fixpoint split_go (sep : string) (skip : nat) (cur : string) (s : string)
  : list string :=
  match s with
  | EmptyString => [cur]
  | String c s' =>
    match skip with
    | S k => split_go sep k cur s'
    | O =>
      if String.prefix sep s
      then cur :: split_go sep (Nat.pred (String.length sep)) "" s'
      else split_go sep O (cur +:+ String c "") s'
    end
  end.

Definition str_split (sep s : string) : list string := split_go sep O "" s.

(** [needle in hay]. *)
Definition contains (needle hay : string) : Prop :=
  ∃ pre post, hay = pre +:+ needle +:+ post.

(** ** The [%] operator with a mapping on the right

    The templates of this module use [%(key)s] and [%(key)i] only; the
    embedding covers these, [%(key)d] and [%%]. A format string is read
    once, left to right. *)

Inductive conv := conv_s | conv_i.

Inductive piece :=
| Lit (c : ascii)
| Hole (key : string) (c : conv).

Inductive pstate :=
| InText
| AfterPercent
| InKey (depth : nat) (key : string)
| AfterKey (key : string).

Fixpoint parse_format (st : pstate) (s : string) : option (list piece) :=
  match s with
  | EmptyString =>
    match st with InText => Some [] | _ => None end
  | String c s' =>
    match st with
    | InText =>
      if Ascii.eqb c "%" then parse_format AfterPercent s'
      else cons (Lit c) <$> parse_format InText s'
    | AfterPercent =>
      if Ascii.eqb c "(" then parse_format (InKey O "") s'
      else if Ascii.eqb c "%" then cons (Lit "%") <$> parse_format InText s'
      else None
    | InKey d k =>
      if Ascii.eqb c ")" then
        match d with
        | O => parse_format (AfterKey k) s'
        | S d' => parse_format (InKey d' (k +:+ String c "")) s'
        end
      else if Ascii.eqb c "(" then parse_format (InKey (S d) (k +:+ String c "")) s'
      else parse_format (InKey d (k +:+ String c "")) s'
    | AfterKey k =>
      if Ascii.eqb c "s" then cons (Hole k conv_s) <$> parse_format InText s'
      else if Ascii.eqb c "i" || Ascii.eqb c "d"
      then cons (Hole k conv_i) <$> parse_format InText s'
      else None
    end
  end.

(** [str(v)]. *)
Definition py_str (v : value) : string :=
  match v with
  | VNone => "None"
  | VInt n => pretty n
  | VStr s => s
  end.

(** [type(v).__name__]. *)
Definition type_name (v : value) : string :=
  match v with
  | VNone => "NoneType"
  | VInt _ => "int"
  | VStr _ => "str"
  end.

(** One conversion. [%s] takes any value; [%i] prints an integer and
    rejects [None] and strings with a [TypeError] that names their type.
    Numbers that are not integers are not among the values of [value]. *)
Definition convert (c : conv) (v : value) : outcome string :=
  match c, v with
  | conv_s, _ => Return (py_str v)
  | conv_i, VInt n => Return (pretty n)
  | conv_i, _ => Raise (Exn TypeError (type_name v))
  end.

(** [getitem] is the [__getitem__] of the mapping operand. *)
Fixpoint render (ps : list piece) (getitem : string → outcome value)
  : outcome string :=
  match ps with
  | [] => Return ""
  | Lit c :: ps' =>
    match render ps' getitem with
    | Return s => Return (String c s)
    | Raise e => Raise e
    end
  | Hole k c :: ps' =>
    match getitem k with
    | Raise e => Raise e
    | Return v =>
      match convert c v with
      | Raise e => Raise e
      | Return sv =>
        match render ps' getitem with
        | Return s => Return (sv +:+ s)
        | Raise e => Raise e
        end
      end
    end
  end.

Definition py_format (fmt : string) (getitem : string → outcome value)
  : outcome string :=
  match parse_format InText fmt with
  | Some ps => render ps getitem
  | None => Raise (Exn ValueError "unsupported format string")
  end.

(** [d[k]] on a plain dictionary. *)
Definition dict_getitem (d : gmap string value) (k : string) : outcome value :=
  match d !! k with
  | Some v => Return v
  | None => Raise (Exn KeyError k)
  end.

(** ** The message templates *)

Definition messages_start : string := unlines
  [ "Hi,";
    "";
    "The jail %(jailname)s has been started successfully.";
    "";
    "Regards,";
    "Fail2Ban" ].

Definition messages_stop : string := unlines
  [ "Hi,";
    "";
    "The jail %(jailname)s has been stopped.";
    "";
    "Regards,";
    "Fail2Ban" ].

Definition messages_ban_head : string := unlines
  [ "Hi,";
    "";
    "The IP %(ip)s has just been banned for %(bantime)i seconds";
    "by Fail2Ban after %(failures)i attempts against %(jailname)s.";
    "" ].

Definition messages_ban_tail : string := unlines
  [ "";
    "Regards,";
    "Fail2Ban" ].

Definition messages_ban_matches : string := unlines
  [ "";
    "Matches for this ban:";
    "%(matches)s";
    "" ].

Definition messages_ban_ipmatches : string := unlines
  [ "";
    "Matches for %(ip)s:";
    "%(ipmatches)s";
    "" ].

Definition messages_ban_ipjailmatches : string := unlines
  [ "";
    "Matches for %(ip)s for jail %(jailname)s:";
    "%(ipjailmatches)s";
    "" ].

(** [messages['ban']]: one dictionary holds the head, the tail and the three
    match sections. *)
Definition messages_ban : gmap string string :=
  <["ipjailmatches" := messages_ban_ipjailmatches]>
  (<["ipmatches" := messages_ban_ipmatches]>
  (<["matches" := messages_ban_matches]>
  (<["tail" := messages_ban_tail]>
  (<["head" := messages_ban_head]> ∅)))).

(** [messages['ban'].get(key, "")], where the key may be [None]. *)
Definition messages_ban_get (key : option string) : string :=
  match key with
  | Some k => default "" (messages_ban !! k)
  | None => ""
  end.

(** ["".join(parts)]. *)
Definition str_join_empty (parts : list string) : string :=
  foldr String.append "" parts.

(** ** The environment of a call

    Everything the action reads from outside itself at the time of a call:
    the host name, the jail's ban time, the clock, the [email] helpers and
    the replies of the SMTP session. *)

Inductive call :=
| Connect (host : string)
| Login (user password : string)
| Sendmail (from_addr : string) (to_addrs : list string) (msg : string)
| Quit.

(** The dictionary [smtplib.SMTP.sendmail] returns: one entry per recipient
    the relay refused, with the reply code and text. *)
Definition refused : Type := list (string * (Z * string)).

Record MIMEText := {
  payload : string;
  Subject : string;
  From : string;
  To : string;
  Date : string
}.

Record World := {
  gethostname : string;
  getBanTime : Z;
  formatdate : string;
  formataddr : string → string → string;
  as_string : MIMEText → string;
  smtp_connect : string → outcome (Z * string);
  smtp_login : string → string → outcome (Z * string);
  smtp_sendmail : string → list string → string → outcome refused;
  (** [quit] is reached after every prefix of the session, so its reply may
      depend on the calls made before it. *)
  smtp_quit : list call → outcome (Z * string)
}.

(** Modelled from the spec: [CallingMap] of [fail2ban.server.actions], which
    [smtp.py] imports; its definition is not part of this development. A
    mapping whose values are either constants or zero-argument accessors. *)
Inductive entry :=
| Const (v : value)
| Callable (f : World → value).

(** Modelled from the spec: reading a value of a [CallingMap] resolves it, a
    constant to itself and an accessor to what it returns when called at that
    moment; nothing is kept from one read to the next. *)
Definition resolve (w : World) (e : entry) : value :=
  match e with
  | Const v => v
  | Callable f => f w
  end.

(** Modelled from the spec: [CallingMap.__getitem__], the lookup of a key
    followed by its resolution. *)
Definition CallingMap_getitem (w : World) (m : gmap string entry) (k : string)
  : outcome value :=
  match m !! k with
  | Some e => Return (resolve w e)
  | None => Raise (Exn KeyError k)
  end.

(** [d.update(m)] for a [CallingMap] [m]: every key of [m] is read through
    [__getitem__] and stored in [d], over what [d] held for it. *)
Definition dict_update (w : World) (d : gmap string value)
    (m : gmap string entry) : gmap string value :=
  (resolve w <$> m) ∪ d.

(** ** The action *)

Record Jail := { jail_name : string }.

Record SMTPAction := {
  _jail : Jail;
  _name : string;
  host : string;
  user : option string;
  password : option string;
  fromname : string;
  fromaddr : string;
  toaddr : string;
  matches : option string;
  message_values : gmap string entry
}.

Definition __init__ (jail : Jail) (name host : string)
    (user password : option string) (sendername sender dest : string)
    (matches : option string) : SMTPAction :=
  {| _jail := jail;
     _name := name;
     host := host;
     user := user;
     password := password;
     fromname := sendername;
     fromaddr := sender;
     toaddr := dest;
     matches := matches;
     message_values :=
       <["bantime" := Callable (λ w, VInt (getBanTime w))]>
       (<["hostname" := Callable (λ w, VStr (gethostname w))]>
       (<["jailname" := Const (VStr (jail_name jail))]> ∅)) |}.

(** Truth value of an optional string: [None] and the empty string are
    false. *)
Definition truthy (o : option string) : bool :=
  match o with
  | Some s => negb (String.eqb s "")
  | None => false
  end.

(** ** Events and the monad of a call *)

Inductive level := DEBUG | WARNING | ERROR.

Inductive arg :=
| AStr (s : string)
| AOptStr (o : option string)
| AInt (n : Z)
| ARefused (d : refused).

(** What a call leaves behind: the records given to [self._logSys], with the
    format and the arguments as passed, and the calls on the SMTP session. *)
Inductive event :=
| Log (lvl : level) (fmt : string) (args : list arg)
| Called (c : call).

Definition calls_of (tr : list event) : list call :=
  omap (λ ev, match ev with Called c => Some c | Log _ _ _ => None end) tr.

(** A computation extends the event list and returns or raises. *)
Definition M (A : Type) : Type := list event → list event * outcome A.

Definition ret {A} (a : A) : M A := λ tr, (tr, Return a).

Definition raise {A} (e : exn) : M A := λ tr, (tr, Raise e).

Definition bind {A B} (m : M A) (f : A → M B) : M B :=
  λ tr,
    match m tr with
    | (tr', Return a) => f a tr'
    | (tr', Raise e) => (tr', Raise e)
    end.

Definition lift {A} (o : outcome A) : M A := λ tr, (tr, o).

Definition log (lvl : level) (fmt : string) (args : list arg) : M unit :=
  λ tr, (tr ++ [Log lvl fmt args], Return tt).

(** A call on the session: recorded, then answered by the environment. *)
Definition invoke {A} (c : call) (reply : list call → outcome A) : M A :=
  λ tr, (tr ++ [Called c], reply (calls_of tr)).

(** [try: body / except: handler / else: orelse]. The handler receives every
    exception and re-raises what no clause matches. *)
Definition try_except_else {A B} (body : M A) (handler : exn → M B)
    (orelse : A → M B) : M B :=
  λ tr,
    match body tr with
    | (tr', Return a) => orelse a tr'
    | (tr', Raise e) => handler e tr'
    end.

(** [try: body / finally: final]: [final] always runs; when it raises, its
    exception replaces the outcome of [body]. *)
Definition try_finally {A} (body : M A) (final : M unit) : M A :=
  λ tr,
    match body tr with
    | (tr', r) =>
      match final tr' with
      | (tr'', Return _) => (tr'', r)
      | (tr'', Raise e) => (tr'', Raise e)
      end
    end.

Declare Scope py_scope.
Delimit Scope py_scope with py.
Notation "x <- m ;; k" := (bind m (λ x, k))
  (at level 100, m at next level, right associativity) : py_scope.
Notation "m ;; k" := (bind m (λ _, k))
  (at level 100, right associativity) : py_scope.

(** What a call evaluates to. A Python function that ends without [return]
    yields [None]; [PyList] is a list of addresses. *)
Inductive pyresult :=
| PyNone
| PyList (l : list string).

(** ** [SMTPAction._sendMessage] *)

Definition sendMessage_try (self : SMTPAction) (w : World) (msg : MIMEText)
  : M refused :=
  (r <- invoke (Connect (host self)) (λ _, smtp_connect w (host self)) ;;
   log DEBUG "Connected to SMTP '%s', response: %i: %s"
       [AStr (host self); AInt r.1; AStr r.2] ;;
   (if truthy (user self) && truthy (password self)
    then
      invoke (Login (default "" (user self)) (default "" (password self)))
        (λ _, smtp_login w (default "" (user self))
                (default "" (password self))) ;;
      ret tt
    else ret tt) ;;
   invoke
     (Sendmail (fromaddr self) (str_split ", " (toaddr self)) (as_string w msg))
     (λ _, smtp_sendmail w (fromaddr self) (str_split ", " (toaddr self))
             (as_string w msg)))%py.

Definition sendMessage_except (self : SMTPAction) (e : exn) : M pyresult :=
  (match class e with
   | SMTPConnectError =>
     log ERROR "Error connecting to host '%s'" [AStr (host self)] ;;
     raise e
   | SMTPAuthenticationError =>
     log ERROR "Failed to authenticate with host '%s' user '%s'"
         [AStr (host self); AOptStr (user self)] ;;
     raise e
   | c =>
     if is_SMTPException c then
       log ERROR "Error sending mail to host '%s' from '%s' to '%s'"
           [AStr (host self); AStr (fromaddr self); AStr (toaddr self)] ;;
       raise e
     else raise e
   end)%py.

Definition sendMessage_else (self : SMTPAction) (subject : string)
    (failed_recipients : refused) : M pyresult :=
  ((match failed_recipients with
    | [] => ret tt
    | _ :: _ =>
      log WARNING "Email to '%s' failed to following recipients: %r"
          [AStr (toaddr self); ARefused failed_recipients]
    end) ;;
   log DEBUG "Email '%s' successfully sent" [AStr subject] ;;
   ret PyNone)%py.

Definition sendMessage_finally (self : SMTPAction) (w : World) : M unit :=
  try_except_else
    (r <- invoke Quit (smtp_quit w) ;;
     log DEBUG "Disconnected from '%s', response %i: %s"
         [AStr (host self); AInt r.1; AStr r.2])%py
    (λ e, match class e with
          | SMTPServerDisconnected => ret tt
          | _ => raise e
          end)
    ret.

(** The message [_sendMessage] builds before it opens the session. *)
Definition envelope (self : SMTPAction) (w : World) (subject text : string)
  : MIMEText :=
  {| payload := text;
     Subject := subject;
     From := formataddr w (fromname self) (fromaddr self);
     To := toaddr self;
     Date := formatdate w |}.

(** The [try] statement without its [finally] clause. *)
Definition sendMessage_session (self : SMTPAction) (w : World)
    (subject text : string) : M pyresult :=
  try_except_else
    (sendMessage_try self w (envelope self w subject text))
    (sendMessage_except self)
    (sendMessage_else self subject).

Definition _sendMessage (self : SMTPAction) (w : World) (subject text : string)
  : M pyresult :=
  try_finally
    (sendMessage_session self w subject text)
    (sendMessage_finally self w).

(** A call runs from an empty event list: the session object is created
    inside [_sendMessage], so no earlier call belongs to its history. *)
Definition run {A} (m : M A) : list event * outcome A := m [].

(** ** [start], [stop] and [ban] *)

(** The two arguments [start] passes to [_sendMessage]. *)
Definition start_message (self : SMTPAction) (w : World)
  : outcome (string * string) :=
  match py_format "[Fail2Ban] %(jailname)s: started on %(hostname)s"
          (CallingMap_getitem w (message_values self)) with
  | Raise e => Raise e
  | Return subject =>
    match py_format messages_start
            (CallingMap_getitem w (message_values self)) with
    | Raise e => Raise e
    | Return text => Return (subject, text)
    end
  end.

Definition start (self : SMTPAction) (w : World) : M pyresult :=
  (st <- lift (start_message self w) ;; _sendMessage self w st.1 st.2)%py.

Definition stop_message (self : SMTPAction) (w : World)
  : outcome (string * string) :=
  match py_format "[Fail2Ban] %(jailname)s: stopped on %(hostname)s"
          (CallingMap_getitem w (message_values self)) with
  | Raise e => Raise e
  | Return subject =>
    match py_format messages_stop
            (CallingMap_getitem w (message_values self)) with
    | Raise e => Raise e
    | Return text => Return (subject, text)
    end
  end.

Definition stop (self : SMTPAction) (w : World) : M pyresult :=
  (st <- lift (stop_message self w) ;; _sendMessage self w st.1 st.2)%py.

(** The objects a call of [ban] can reach: the action itself and the
    dictionary the caller passes in. *)
Record Store := {
  this : SMTPAction;
  aInfo : gmap string value
}.

(** The body template of a ban, before interpolation. *)
Definition ban_template (self : SMTPAction) : string :=
  str_join_empty
    [ messages_ban_head;
      messages_ban_get (matches self);
      messages_ban_tail ].

(** [aInfo.update(self.message_values)], then the two arguments [ban] passes
    to [_sendMessage]. *)
Definition ban_message (w : World) (σ : Store)
  : Store * outcome (string * string) :=
  let self := this σ in
  let aInfo' := dict_update w (aInfo σ) (message_values self) in
  let message := ban_template self in
  ({| this := self; aInfo := aInfo' |},
   match py_format "[Fail2Ban] %(jailname)s: banned %(ip)s from %(hostname)s"
           (dict_getitem aInfo') with
   | Raise e => Raise e
   | Return subject =>
     match py_format message (dict_getitem aInfo') with
     | Raise e => Raise e
     | Return text => Return (subject, text)
     end
   end).

Definition ban (w : World) (σ : Store) : Store * M pyresult :=
  let (σ', args) := ban_message w σ in
  (σ', (st <- lift args ;; _sendMessage (this σ') w st.1 st.2)%py).

(** The three calls the jail makes on the action. [start] and [stop] receive
    no dictionary. *)
Inductive notification := JailStart | JailStop | Ban.

Definition dispatch (n : notification) (w : World) (σ : Store)
  : Store * M pyresult :=
  match n with
  | JailStart => (σ, start (this σ) w)
  | JailStop => (σ, stop (this σ) w)
  | Ban => ban w σ
  end.

(** ** Statement helpers *)

(** Whether a string has a percent sign, the character every placeholder
    starts with. *)
Fixpoint has_percent (s : string) : bool :=
  match s with
  | EmptyString => false
  | String c s' => Ascii.eqb c "%" || has_percent s'
  end.

(** The library raises [SMTPAuthenticationError] from [login] only. *)
Definition auth_error_from_login_only (w : World) : Prop :=
  (∀ h e, smtp_connect w h = Raise e → class e ≠ SMTPAuthenticationError) ∧
  (∀ f t m e, smtp_sendmail w f t m = Raise e →
     class e ≠ SMTPAuthenticationError) ∧
  (∀ cs e, smtp_quit w cs = Raise e → class e ≠ SMTPAuthenticationError).

(** Teardown succeeds or fails as already disconnected. *)
Definition quit_clean (o : outcome (Z * string)) : Prop :=
  match o with
  | Return _ => True
  | Raise e => class e = SMTPServerDisconnected
  end.

(** The addresses of a [sendmail] result. *)
Definition rejected_addresses (d : refused) : list string := d.*1.

(** The texts the specification describes for a ban: the head with the
    address, the ban time, the attempt count and the jail name filled in, and
    the match section of a mode with the event's value for that mode. These
    are compared with what [ban_message] computes. *)
Definition head_text (ip : value) (bantime failures : Z) (jailname : string)
  : string :=
  unlines [ "Hi,"; ""; "The IP " ] +:+ py_str ip
    +:+ " has just been banned for " +:+ pretty bantime
    +:+ unlines [ " seconds"; "by Fail2Ban after " ] +:+ pretty failures
    +:+ " attempts against " +:+ jailname +:+ unlines [ "."; "" ].

Definition middle_text (mode : option string) (ev : gmap string value)
    (ip : value) (jailname : string) : string :=
  if decide (mode = Some "matches") then
    unlines [ ""; "Matches for this ban:"; "" ]
      +:+ py_str (default VNone (ev !! "matches")) +:+ NL
  else if decide (mode = Some "ipmatches") then
    unlines [ ""; "Matches for " ] +:+ py_str ip +:+ unlines [ ":"; "" ]
      +:+ py_str (default VNone (ev !! "ipmatches")) +:+ NL
  else if decide (mode = Some "ipjailmatches") then
    unlines [ ""; "Matches for " ] +:+ py_str ip +:+ " for jail "
      +:+ jailname +:+ unlines [ ":"; "" ]
      +:+ py_str (default VNone (ev !! "ipjailmatches")) +:+ NL
  else "".

Definition ban_subject_text (jailname : string) (ip : value)
    (hostname : string) : string :=
  "[Fail2Ban] " +:+ jailname +:+ ": banned " +:+ py_str ip +:+ " from "
    +:+ hostname.

(** The keys the match section of a mode reads. *)
Definition mode_key_present (mode : option string) (ev : gmap string value)
  : Prop :=
  ∀ k, mode = Some k →
       k ∈ ["matches"; "ipmatches"; "ipjailmatches"] → is_Some (ev !! k).

(** ** Sample configurations and environments *)

Definition sample_jail : Jail := {| jail_name := "sshd" |}.

Definition sample_action (matches : option string) : SMTPAction :=
  __init__ sample_jail "smtp" "localhost" None None
    "Fail2Ban" "fail2ban" "root@example.org, admin@example.org" matches.

Definition sample_action_user_only : SMTPAction :=
  __init__ sample_jail "smtp" "mail.example.org" (Some "f2b") None
    "Fail2Ban" "fail2ban" "root" None.

Definition sample_event : gmap string value :=
  <["ip" := VStr "10.0.0.5"]> (<["failures" := VInt 3]> ∅).

(** An event whose data names a key of the context values as well. *)
Definition sample_event_conflict : gmap string value :=
  <["hostname" := VStr "spoofed"]> sample_event.

(** A relay that accepts the session and refuses the second recipient. *)
Definition world_partial : World :=
  {| gethostname := "gateway";
     getBanTime := 600;
     formatdate := "Tue, 03 Nov 2026 10:00:00 -0000";
     formataddr := λ n a, n +:+ " <" +:+ a +:+ ">";
     as_string := λ m, "Subject: " +:+ Subject m +:+ NL +:+ NL +:+ payload m;
     smtp_connect := λ _, Return (220, "ready");
     smtp_login := λ _ _, Return (235, "accepted");
     smtp_sendmail := λ _ _ _,
       Return [("admin@example.org", (550, "no such user"))];
     smtp_quit := λ _, Return (221, "bye") |}.

(** Another moment with the same host name and ban time: the clock, the
    [email] helpers and the relay's replies differ. *)
Definition world_later : World :=
  {| gethostname := "gateway";
     getBanTime := 600;
     formatdate := "Wed, 04 Nov 2026 08:30:00 -0000";
     formataddr := λ n a, a;
     as_string := λ m, payload m;
     smtp_connect := λ _, Return (220, "hello");
     smtp_login := λ _ _, Return (235, "accepted");
     smtp_sendmail := λ _ _ _, Return [];
     smtp_quit := λ _, Return (221, "closing") |}.

(** The host renamed and the ban time raised. *)
Definition world_changed : World :=
  {| gethostname := "bastion";
     getBanTime := 900;
     formatdate := "Thu, 05 Nov 2026 09:00:00 -0000";
     formataddr := λ n a, n +:+ " <" +:+ a +:+ ">";
     as_string := λ m, payload m;
     smtp_connect := λ _, Return (220, "ready");
     smtp_login := λ _ _, Return (235, "accepted");
     smtp_sendmail := λ _ _ _, Return [];
     smtp_quit := λ _, Return (221, "bye") |}.

(** A host that refuses the connection: [connect] fails with the socket
    error, which is no [SMTPException]; [quit] on the session that never
    opened reports that it is not connected. *)
Definition world_unreachable : World :=
  {| gethostname := "gateway";
     getBanTime := 600;
     formatdate := "Tue, 03 Nov 2026 10:00:00 -0000";
     formataddr := λ n a, n +:+ " <" +:+ a +:+ ">";
     as_string := λ m, payload m;
     smtp_connect := λ _, Raise (Exn OSError "[Errno 111] Connection refused");
     smtp_login := λ _ _, Return (235, "accepted");
     smtp_sendmail := λ _ _ _, Return [];
     smtp_quit := λ _,
       Raise (Exn SMTPServerDisconnected "please run connect() first") |}.

(** ** Further helpers and sample environments *)

(** [sep.join(parts)]. *)
Fixpoint str_join (sep : string) (parts : list string) : string :=
  match parts with
  | [] => ""
  | [p] => p
  | p :: ps => p +:+ sep +:+ str_join sep ps
  end.

(** [sep in s], as a test. *)
Fixpoint occurs (sep s : string) : bool :=
  String.prefix sep s
  || match s with
     | EmptyString => false
     | String _ s' => occurs sep s'
     end.

(** The keys a parsed format reads, and those of a format string. *)
Fixpoint hole_keys (ps : list piece) : list string :=
  match ps with
  | [] => []
  | Lit _ :: ps' => hole_keys ps'
  | Hole k _ :: ps' => k :: hole_keys ps'
  end.

Definition format_keys (fmt : string) : list string :=
  match parse_format InText fmt with
  | Some ps => hole_keys ps
  | None => []
  end.

(** The calls a notification makes on its session before the teardown, read
    off the replies: [connect] always; [login] when both credentials are set
    and the session opened; [sendmail] when nothing before it raised. *)
Definition session_calls (self : SMTPAction) (w : World)
    (subject text : string) : list call :=
  let send :=
    [ Sendmail (fromaddr self) (str_split ", " (toaddr self))
        (as_string w (envelope self w subject text)) ] in
  Connect (host self) ::
  match smtp_connect w (host self) with
  | Raise _ => []
  | Return _ =>
    if truthy (user self) && truthy (password self) then
      Login (default "" (user self)) (default "" (password self)) ::
      match smtp_login w (default "" (user self))
              (default "" (password self)) with
      | Raise _ => []
      | Return _ => send
      end
    else send
  end.

Definition sample_action_login : SMTPAction :=
  __init__ sample_jail "smtp" "mail.example.org:587" (Some "f2b")
    (Some "secret") "Fail2Ban" "fail2ban@example.org"
    "root@example.org, admin@example.org" None.

(** A recipient string written with commas only. *)
Definition sample_action_commas : SMTPAction :=
  __init__ sample_jail "smtp" "localhost" None None
    "Fail2Ban" "fail2ban" "root@example.org,admin@example.org" None.

Definition sample_event_matches : gmap string value :=
  <["matches" := VStr "Nov  3 10:00:00 sshd: Failed password for root"]>
    sample_event.

(** The same event with the time of the ban as a further key. *)
Definition sample_event_timed : gmap string value :=
  <["time" := VInt 1762164000]> sample_event_matches.

(** A relay that rejects the credentials. *)
Definition world_auth_rejected : World :=
  {| gethostname := "gateway";
     getBanTime := 600;
     formatdate := "Tue, 03 Nov 2026 10:00:00 -0000";
     formataddr := λ n a, n +:+ " <" +:+ a +:+ ">";
     as_string := λ m, payload m;
     smtp_connect := λ _, Return (220, "ready");
     smtp_login := λ _ _,
       Raise (Exn SMTPAuthenticationError "535 authentication failed");
     smtp_sendmail := λ _ _ _, Return [];
     smtp_quit := λ _, Return (221, "bye") |}.

(** A relay that refuses every recipient. *)
Definition world_all_refused : World :=
  {| gethostname := "gateway";
     getBanTime := 600;
     formatdate := "Tue, 03 Nov 2026 10:00:00 -0000";
     formataddr := λ n a, n +:+ " <" +:+ a +:+ ">";
     as_string := λ m, payload m;
     smtp_connect := λ _, Return (220, "ready");
     smtp_login := λ _ _, Return (235, "accepted");
     smtp_sendmail := λ _ _ _,
       Raise (Exn SMTPRecipientsRefused "550 no such user");
     smtp_quit := λ _, Return (221, "bye") |}.

(** A relay that takes the message and then drops the connection in a way
    the session reports as a socket error. *)
Definition world_quit_broken : World :=
  {| gethostname := "gateway";
     getBanTime := 600;
     formatdate := "Tue, 03 Nov 2026 10:00:00 -0000";
     formataddr := λ n a, n +:+ " <" +:+ a +:+ ">";
     as_string := λ m, payload m;
     smtp_connect := λ _, Return (220, "ready");
     smtp_login := λ _ _, Return (235, "accepted");
     smtp_sendmail := λ _ _ _, Return [];
     smtp_quit := λ _, Raise (Exn OSError "broken pipe") |}.

(** * Properties *)

(** ** The context values built by [__init__] *)

Section Context_values.
Variables (jail : Jail) (name srv : string) (usr pwd : option string)
          (sendername sender dest : string) (mode : option string).

Let self : SMTPAction :=
  __init__ jail name srv usr pwd sendername sender dest mode.

Lemma getitem_jailname w :
  CallingMap_getitem w (message_values self) "jailname"
  = Return (VStr (jail_name jail)).
Proof. reflexivity. Qed.

Lemma getitem_hostname w :
  CallingMap_getitem w (message_values self) "hostname"
  = Return (VStr (gethostname w)).
Proof. reflexivity. Qed.

Lemma getitem_bantime w :
  CallingMap_getitem w (message_values self) "bantime"
  = Return (VInt (getBanTime w)).
Proof. reflexivity. Qed.

(** [update] amounts to three assignments, made after the event data. *)
Lemma dict_update_init w (d : gmap string value) :
  dict_update w d (message_values self)
  = <["bantime" := VInt (getBanTime w)]>
    (<["hostname" := VStr (gethostname w)]>
    (<["jailname" := VStr (jail_name jail)]> d)).
Proof.
  unfold dict_update, self, __init__; cbn [message_values].
  rewrite !fmap_insert, fmap_empty.
  rewrite <- !insert_union_l.
  by rewrite (left_id ∅ (∪)).
Qed.
End Context_values.

(** ** Interpolation *)

Lemma append_empty_r (s : string) : s +:+ "" = s.
Proof.
  induction s as [|c s IH]; [reflexivity|].
  change (String c (s +:+ "") = String c s). by rewrite IH.
Qed.

Lemma append_assoc (a b c : string) : (a +:+ b) +:+ c = a +:+ (b +:+ c).
Proof.
  induction a as [|x a IH]; [reflexivity|].
  change (String x ((a +:+ b) +:+ c) = String x (a +:+ (b +:+ c))).
  by rewrite IH.
Qed.

(** Closes an equation between two spellings of one concatenation. *)
Ltac string_norm := rewrite ?append_assoc, ?append_empty_r; reflexivity.

Lemma has_percent_app (a b : string) :
  has_percent (a +:+ b) = has_percent a || has_percent b.
Proof.
  induction a as [|c a IH]; [reflexivity|].
  simpl. by rewrite IH, orb_assoc.
Qed.

Lemma contains_intro (pre needle post : string) :
  contains needle (pre +:+ needle +:+ post).
Proof. by exists pre, post. Qed.

(** Replaces the parse of a closed format string by its value. *)
Ltac eval_parse :=
  match goal with
  | |- context [parse_format InText ?fmt] =>
    let ps := eval vm_compute in (parse_format InText fmt) in
    change (parse_format InText fmt) with ps
  end.

(** Renders a parsed format over a mapping whose reads are given by
    equations in the context. *)
Ltac render_with g :=
  cbn [render];
  repeat match goal with
         | H : g ?k = Return _ |- context [g ?k] => rewrite H; cbn [render convert py_str]
         end.

Section Lifecycle.
Variables (jail : Jail) (name srv : string) (usr pwd : option string)
          (sendername sender dest : string) (mode : option string).

Let self : SMTPAction :=
  __init__ jail name srv usr pwd sendername sender dest mode.

Lemma start_message_eq w :
  start_message self w
  = Return ("[Fail2Ban] " +:+ jail_name jail +:+ ": started on "
              +:+ gethostname w,
            unlines [ "Hi,"; ""; "The jail " ] +:+ jail_name jail
              +:+ unlines [ " has been started successfully."; "";
                            "Regards,"; "Fail2Ban" ]).
Proof.
  unfold start_message, py_format.
  pose proof (getitem_jailname jail name srv usr pwd sendername
                sender dest mode w) as Hj.
  pose proof (getitem_hostname jail name srv usr pwd sendername
                sender dest mode w) as Hh.
  fold self in Hj, Hh.
  set (g := CallingMap_getitem w (message_values self)) in *.
  clearbody g.
  eval_parse. render_with g.
  eval_parse. render_with g.
  string_norm.
Qed.

Lemma stop_message_eq w :
  stop_message self w
  = Return ("[Fail2Ban] " +:+ jail_name jail +:+ ": stopped on "
              +:+ gethostname w,
            unlines [ "Hi,"; ""; "The jail " ] +:+ jail_name jail
              +:+ unlines [ " has been stopped."; "";
                            "Regards,"; "Fail2Ban" ]).
Proof.
  unfold stop_message, py_format.
  pose proof (getitem_jailname jail name srv usr pwd sendername
                sender dest mode w) as Hj.
  pose proof (getitem_hostname jail name srv usr pwd sendername
                sender dest mode w) as Hh.
  fold self in Hj, Hh.
  set (g := CallingMap_getitem w (message_values self)) in *.
  clearbody g.
  eval_parse. render_with g.
  eval_parse. render_with g.
  string_norm.
Qed.

(** C10. Composing the start and the stop notification cannot fail: for
    every action built by [__init__] and every environment both
    interpolations return, so [start] and [stop] reach [_sendMessage]; the
    subject contains the jail name and the host name resolved at that
    moment; the body is the template with the jail name in the place of its
    one placeholder, and has a percent sign only where the jail name has
    one. *)
Theorem lifecycle_messages_total w :
  ∃ start_subject start_body stop_subject stop_body,
    start_message self w = Return (start_subject, start_body) ∧
    stop_message self w = Return (stop_subject, stop_body) ∧
    run (start self w) = run (_sendMessage self w start_subject start_body) ∧
    run (stop self w) = run (_sendMessage self w stop_subject stop_body) ∧
    contains (jail_name jail) start_subject ∧
    contains (gethostname w) start_subject ∧
    contains (jail_name jail) stop_subject ∧
    contains (gethostname w) stop_subject ∧
    start_body
    = unlines [ "Hi,"; ""; "The jail " ] +:+ jail_name jail
        +:+ unlines [ " has been started successfully."; "";
                      "Regards,"; "Fail2Ban" ] ∧
    stop_body
    = unlines [ "Hi,"; ""; "The jail " ] +:+ jail_name jail
        +:+ unlines [ " has been stopped."; ""; "Regards,"; "Fail2Ban" ] ∧
    has_percent start_body = has_percent (jail_name jail) ∧
    has_percent stop_body = has_percent (jail_name jail).
Proof.
  eexists _, _, _, _.
  split; [apply start_message_eq|].
  split; [apply stop_message_eq|].
  split; [unfold run, start, bind, lift; by rewrite start_message_eq|].
  split; [unfold run, stop, bind, lift; by rewrite stop_message_eq|].
  split; [apply contains_intro|].
  split.
  { exists ("[Fail2Ban] " +:+ jail_name jail +:+ ": started on "), "".
    string_norm. }
  split; [apply contains_intro|].
  split.
  { exists ("[Fail2Ban] " +:+ jail_name jail +:+ ": stopped on "), "".
    string_norm. }
  split; [reflexivity|].
  split; [reflexivity|].
  rewrite !has_percent_app.
  split; cbn; by rewrite orb_false_r.
Qed.
End Lifecycle.

(** ** Composition of the ban message *)

Lemma messages_ban_get_other (k : string) :
  k ≠ "head" → k ≠ "tail" → k ≠ "matches" → k ≠ "ipmatches" →
  k ≠ "ipjailmatches" → messages_ban_get (Some k) = "".
Proof.
  intros. unfold messages_ban_get, messages_ban.
  by rewrite !lookup_insert_ne, lookup_empty.
Qed.

(** Every template [ban] can assemble is within the formats the embedding
    of [%] covers, whatever the configured mode. *)
Lemma ban_template_parses (self : SMTPAction) :
  is_Some (parse_format InText (ban_template self)).
Proof.
  unfold ban_template, str_join_empty; cbn [foldr].
  destruct (matches self) as [k|]; [|by (eexists; vm_compute)].
  destruct (decide (k = "head")) as [->|]; [by (eexists; vm_compute)|].
  destruct (decide (k = "tail")) as [->|]; [by (eexists; vm_compute)|].
  destruct (decide (k = "matches")) as [->|]; [by (eexists; vm_compute)|].
  destruct (decide (k = "ipmatches")) as [->|]; [by (eexists; vm_compute)|].
  destruct (decide (k = "ipjailmatches")) as [->|]; [by (eexists; vm_compute)|].
  rewrite messages_ban_get_other by done. by (eexists; vm_compute).
Qed.

Section Ban.
Variables (jail : Jail) (name srv : string) (usr pwd : option string)
          (sendername sender dest : string) (mode : option string).
Variables (w : World) (ev : gmap string value).

Let self : SMTPAction :=
  __init__ jail name srv usr pwd sendername sender dest mode.

Let merged : gmap string value := dict_update w ev (message_values self).

Lemma merged_jailname : merged !! "jailname" = Some (VStr (jail_name jail)).
Proof. unfold merged, self. rewrite dict_update_init. by simplify_map_eq. Qed.

Lemma merged_hostname : merged !! "hostname" = Some (VStr (gethostname w)).
Proof. unfold merged, self. rewrite dict_update_init. by simplify_map_eq. Qed.

Lemma merged_bantime : merged !! "bantime" = Some (VInt (getBanTime w)).
Proof. unfold merged, self. rewrite dict_update_init. by simplify_map_eq. Qed.

Lemma merged_other k :
  k ≠ "jailname" → k ≠ "hostname" → k ≠ "bantime" → merged !! k = ev !! k.
Proof.
  intros. unfold merged, self. rewrite dict_update_init.
  by rewrite !lookup_insert_ne.
Qed.

Lemma getitem_merged k v : merged !! k = Some v → dict_getitem merged k = Return v.
Proof. unfold dict_getitem. by intros ->. Qed.

(** For every mode that does not name the head or the tail, the message is
    the head, the section of the mode and the tail, with every placeholder
    filled in from the merged dictionary. *)
Lemma ban_message_selected ip failures :
  ev !! "ip" = Some ip →
  ev !! "failures" = Some (VInt failures) →
  mode_key_present mode ev →
  mode ≠ Some "head" → mode ≠ Some "tail" →
  (ban_message w {| this := self; aInfo := ev |}).2
  = Return (ban_subject_text (jail_name jail) ip (gethostname w),
            head_text ip (getBanTime w) failures (jail_name jail)
              +:+ middle_text mode ev ip (jail_name jail)
              +:+ messages_ban_tail).
Proof.
  intros Hip Hf Hkey Hhead Htail.
  unfold ban_message; cbn [snd this aInfo]. fold merged.
  assert (Gip : dict_getitem merged "ip" = Return ip)
    by (apply getitem_merged; by rewrite merged_other).
  assert (Gf : dict_getitem merged "failures" = Return (VInt failures))
    by (apply getitem_merged; by rewrite merged_other).
  pose proof (getitem_merged _ _ merged_jailname) as Gj.
  pose proof (getitem_merged _ _ merged_hostname) as Gh.
  pose proof (getitem_merged _ _ merged_bantime) as Gb.
  assert (Gm : ∀ k, mode = Some k →
                    k ∈ ["matches"; "ipmatches"; "ipjailmatches"] →
                    dict_getitem merged k
                    = Return (default VNone (ev !! k))).
  { intros k Hk Hin. destruct (Hkey k Hk Hin) as [v Hv].
    apply getitem_merged. rewrite Hv; cbn. clear Hk.
    rewrite !elem_of_cons, elem_of_nil in Hin.
    destruct Hin as [-> | [-> | [-> | []]]]; by rewrite merged_other. }
  set (g := dict_getitem merged) in *. clearbody g.
  unfold py_format at 1. eval_parse. render_with g.
  unfold ban_template, str_join_empty; cbn [foldr matches self __init__].
  unfold head_text, middle_text, ban_subject_text.
  destruct mode as [k|]; cycle 1.
  { unfold py_format. cbn [messages_ban_get]. eval_parse. render_with g.
    repeat case_decide; try discriminate. string_norm. }
  destruct (decide (k = "matches")) as [->|].
  { pose proof (Gm _ eq_refl ltac:(set_solver)) as Gk.
    unfold py_format. eval_parse. render_with g.
    repeat case_decide; try congruence. string_norm. }
  destruct (decide (k = "ipmatches")) as [->|].
  { pose proof (Gm _ eq_refl ltac:(set_solver)) as Gk.
    unfold py_format. eval_parse. render_with g.
    repeat case_decide; try congruence. string_norm. }
  destruct (decide (k = "ipjailmatches")) as [->|].
  { pose proof (Gm _ eq_refl ltac:(set_solver)) as Gk.
    unfold py_format. eval_parse. render_with g.
    repeat case_decide; try congruence. string_norm. }
  rewrite messages_ban_get_other by congruence.
  unfold py_format. eval_parse. render_with g.
  repeat case_decide; try congruence. string_norm.
Qed.

(** C4. In the merge [ban] performs, a key of the event data other than
    [jailname], [hostname] and [bantime] keeps the value the caller gave,
    and these three keys hold the context values, whatever the event data
    held for them: the context values are stored after the event data. *)
Theorem ban_merge_precedence k :
  k ≠ "jailname" → k ≠ "hostname" → k ≠ "bantime" →
  let after := aInfo (ban_message w {| this := self; aInfo := ev |}).1 in
  after !! k = ev !! k ∧
  after !! "jailname" = Some (VStr (jail_name jail)) ∧
  after !! "hostname" = Some (VStr (gethostname w)) ∧
  after !! "bantime" = Some (VInt (getBanTime w)).
Proof.
  intros Hj Hh Hb. cbn. fold merged.
  split; [by apply merged_other|].
  split; [apply merged_jailname|].
  split; [apply merged_hostname | apply merged_bantime].
Qed.

(** C5, as the code has it. No call the jail makes changes a field of the
    action, and [start] and [stop] change nothing else either. A call of
    [ban] changes the dictionary of the caller in place: afterwards it is the
    dictionary passed in with [jailname], [hostname] and [bantime] set to the
    context values, and no other key changed. *)
Theorem ban_updates_caller_dict_only :
  let σ := {| this := self; aInfo := ev |} in
  (∀ n, this (dispatch n w σ).1 = self) ∧
  (dispatch JailStart w σ).1 = σ ∧
  (dispatch JailStop w σ).1 = σ ∧
  aInfo (dispatch Ban w σ).1
  = <["bantime" := VInt (getBanTime w)]>
    (<["hostname" := VStr (gethostname w)]>
    (<["jailname" := VStr (jail_name jail)]> ev)) ∧
  ∀ k, k ≠ "jailname" → k ≠ "hostname" → k ≠ "bantime" →
       aInfo (dispatch Ban w σ).1 !! k = ev !! k.
Proof.
  cbn. split; [by intros []|].
  split; [reflexivity|].
  split; [reflexivity|].
  split;
    [apply (dict_update_init jail name srv usr pwd sendername sender dest
              mode)|].
  intros k Hj Hh Hb. by apply merged_other.
Qed.
End Ban.

(** C5, counterexample. A ban is dispatched and sent without an error, and
    the dictionary of the caller is not what it was before the call. *)
Lemma ban_changes_event_data :
  let σ := {| this := sample_action None; aInfo := sample_event |} in
  (run (dispatch Ban world_partial σ).2).2 = Return PyNone ∧
  aInfo σ !! "bantime" = None ∧
  aInfo (dispatch Ban world_partial σ).1 !! "bantime" = Some (VInt 600) ∧
  aInfo (dispatch Ban world_partial σ).1 ≠ aInfo σ.
Proof.
  split; [by vm_compute|].
  split; [by vm_compute|].
  split; [by vm_compute|].
  intros H. apply (f_equal (lookup "bantime")) in H.
  vm_compute in H. discriminate.
Qed.

Lemma ban_merge_precedence_witness :
  let after :=
    aInfo (ban_message world_partial
             {| this := sample_action (Some "ipmatches");
                aInfo := sample_event_conflict |}).1 in
  after !! "ip" = sample_event_conflict !! "ip" ∧
  after !! "jailname" = Some (VStr "sshd") ∧
  after !! "hostname" = Some (VStr "gateway") ∧
  after !! "bantime" = Some (VInt 600).
Proof.
  apply (ban_merge_precedence sample_jail "smtp" "localhost" None None
           "Fail2Ban" "fail2ban" "root@example.org, admin@example.org"
           (Some "ipmatches") world_partial sample_event_conflict "ip");
    discriminate.
Defined.

(** The ban of 10.0.0.5 after 3 attempts, with a ban time of 600 seconds
    and the match section of the event. *)
Example ban_sample_message :
  (ban_message world_partial
     {| this := sample_action (Some "matches");
        aInfo := <["matches" := VStr "Nov  3 sshd: Failed password"]>
                   sample_event |}).2
  = Return
      ("[Fail2Ban] sshd: banned 10.0.0.5 from gateway",
       unlines
         [ "Hi,";
           "";
           "The IP 10.0.0.5 has just been banned for 600 seconds";
           "by Fail2Ban after 3 attempts against sshd.";
           "";
           "Matches for this ban:";
           "Nov  3 sshd: Failed password";
           "";
           "Regards,";
           "Fail2Ban" ]).
Proof. by vm_compute. Qed.

(** C1, at the modes ["head"] and ["tail"]. Neither is one of the three
    match modes, yet the lookup finds a template under each of these keys:
    with ["head"] the body is the head twice and then the tail, with ["tail"]
    the head and then the tail twice, not the head and the tail alone. *)
Theorem ban_mode_head_repeats_head :
  let σ m := {| this := sample_action (Some m); aInfo := sample_event |} in
  let subject := ban_subject_text "sshd" (VStr "10.0.0.5") "gateway" in
  let head := head_text (VStr "10.0.0.5") 600 3 "sshd" in
  messages_ban_get (Some "head") = messages_ban_head ∧
  messages_ban_get (Some "tail") = messages_ban_tail ∧
  (ban_message world_partial (σ "head")).2
  = Return (subject, head +:+ head +:+ messages_ban_tail) ∧
  (ban_message world_partial (σ "tail")).2
  = Return (subject, head +:+ messages_ban_tail +:+ messages_ban_tail) ∧
  (ban_message world_partial (σ "head")).2
  ≠ Return (subject, head +:+ "" +:+ messages_ban_tail) ∧
  (ban_message world_partial (σ "tail")).2
  ≠ Return (subject, head +:+ "" +:+ messages_ban_tail).
Proof.
  split; [by vm_compute|].
  split; [by vm_compute|].
  split; [by vm_compute|].
  split; [by vm_compute|].
  split; intros H;
    apply (f_equal (λ o, match o with
                         | Return st => String.length st.2
                         | Raise _ => O
                         end)) in H;
    vm_compute in H; discriminate.
Qed.

(** ** Resolution of the dynamic keys *)

Section Resolution.
Variables (jail : Jail) (name srv : string) (usr pwd : option string)
          (sendername sender dest : string) (mode : option string).
Variables (name' srv' : string) (usr' pwd' : option string)
          (sendername' sender' dest' : string).
Variables (w1 w2 : World) (ev : gmap string value).

Let self : SMTPAction :=
  __init__ jail name srv usr pwd sendername sender dest mode.

Let self' : SMTPAction :=
  __init__ jail name' srv' usr' pwd' sendername' sender' dest' mode.

(** A second [update] overrides what the first one stored. *)
Lemma dict_update_again :
  dict_update w2 (dict_update w1 ev (message_values self))
    (message_values self)
  = dict_update w2 ev (message_values self).
Proof.
  unfold self. rewrite !dict_update_init.
  apply map_eq. intros k.
  destruct (decide (k = "bantime")) as [->|]; [by simplify_map_eq|].
  destruct (decide (k = "hostname")) as [->|]; [by simplify_map_eq|].
  destruct (decide (k = "jailname")) as [->|]; [by simplify_map_eq|].
  by rewrite !lookup_insert_ne.
Qed.


(** C9. Composition of the ban message is a function of the event data,
    the match mode, the jail name and the two resolved values: two calls
    that agree on these compose the same subject and body (or raise the
    same exception) and leave the same dictionary, whatever else differs
    between the two actions and the two environments. *)
Theorem ban_message_deterministic :
  gethostname w1 = gethostname w2 →
  getBanTime w1 = getBanTime w2 →
  (ban_message w1 {| this := self; aInfo := ev |}).2
  = (ban_message w2 {| this := self'; aInfo := ev |}).2 ∧
  aInfo (ban_message w1 {| this := self; aInfo := ev |}).1
  = aInfo (ban_message w2 {| this := self'; aInfo := ev |}).1.
Proof.
  intros Hh Hb. unfold ban_message; cbn [fst snd this aInfo].
  unfold self, self'. rewrite !dict_update_init, Hh, Hb.
  split; reflexivity.
Qed.
End Resolution.

(** A ban time raised from 600 to 900 seconds and a renamed host show in
    the message of the next ban, composed by the same action on the
    dictionary the first ban filled in. *)
Example later_ban_has_later_values :
  let self := sample_action None in
  let σ1 := (ban_message world_partial
               {| this := self; aInfo := sample_event |}).1 in
  (ban_message world_changed σ1).2
  = Return
      ("[Fail2Ban] sshd: banned 10.0.0.5 from bastion",
       unlines
         [ "Hi,";
           "";
           "The IP 10.0.0.5 has just been banned for 900 seconds";
           "by Fail2Ban after 3 attempts against sshd.";
           "";
           "Regards,";
           "Fail2Ban" ]).
Proof. by vm_compute. Qed.

Lemma ban_message_deterministic_witness :
  ((ban_message world_partial
      {| this := sample_action (Some "matches");
         aInfo := sample_event_matches |}).2
   = (ban_message world_later
        {| this := __init__ sample_jail "mail" "mail.example.org:587"
                     (Some "f2b") (Some "secret") "Ban" "f2b@example.org"
                     "ops@example.org" (Some "matches");
           aInfo := sample_event_matches |}).2 ∧
   aInfo (ban_message world_partial
            {| this := sample_action (Some "matches");
               aInfo := sample_event_matches |}).1
   = aInfo (ban_message world_later
              {| this := __init__ sample_jail "mail" "mail.example.org:587"
                           (Some "f2b") (Some "secret") "Ban"
                           "f2b@example.org" "ops@example.org"
                           (Some "matches");
                 aInfo := sample_event_matches |}).1) ∧
  (ban_message world_partial
     {| this := sample_action (Some "matches");
        aInfo := sample_event_matches |}).2
  = Return
      ("[Fail2Ban] sshd: banned 10.0.0.5 from gateway",
       unlines
         [ "Hi,";
           "";
           "The IP 10.0.0.5 has just been banned for 600 seconds";
           "by Fail2Ban after 3 attempts against sshd.";
           "";
           "Matches for this ban:";
           "Nov  3 10:00:00 sshd: Failed password for root";
           "";
           "Regards,";
           "Fail2Ban" ]).
Proof.
  split.
  - apply (ban_message_deterministic sample_jail "smtp" "localhost" None None
             "Fail2Ban" "fail2ban" "root@example.org, admin@example.org"
             (Some "matches") "mail" "mail.example.org:587" (Some "f2b")
             (Some "secret") "Ban" "f2b@example.org" "ops@example.org"
             world_partial world_later sample_event_matches); reflexivity.
  - vm_compute. reflexivity.
Defined.

(** ** The transport *)

Lemma calls_of_app (a b : list event) :
  calls_of (a ++ b) = calls_of a ++ calls_of b.
Proof. apply omap_app. Qed.

(** Unfolds the monad down to matches on the replies of the environment. *)
Ltac unfold_send :=
  unfold run, _sendMessage, try_finally, sendMessage_finally,
    sendMessage_session, try_except_else, sendMessage_try, sendMessage_except,
    sendMessage_else, bind, invoke, log, ret, raise;
  cbn [app calls_of omap fst snd].

(** Decide membership in an explicit list of events or calls. *)
Ltac event_in :=
  cbn; solve [repeat first [apply list_elem_of_here | apply list_elem_of_further]].

Ltac event_not_in :=
  let H := fresh in
  intros H; cbn in H;
  repeat (apply elem_of_cons in H as [H|H]; [discriminate H|]);
  by apply elem_of_nil in H.

(** Splits on the reply of [quit], which the hypothesis [Hq] says is clean,
    and settles the conjuncts about the resulting event list. *)
Ltac finish_send Hq :=
  let c := fresh "c" in
  match goal with
  | |- context [smtp_quit ?w ?cs] =>
    destruct (smtp_quit w cs) as [?|[c ?]]
  end;
  [|cbn in Hq; subst c]; cbn;
  repeat split; try done; try (intros; event_not_in); try (intros; event_in).

Section Transport.
Variables (self : SMTPAction) (w : World) (subject text : string).

(** The session part calls [connect], then possibly [login] and
    [sendmail], and never [quit]. *)
Lemma session_never_quits :
  Quit ∉ calls_of (run (sendMessage_session self w subject text)).1.
Proof.
  unfold_send.
  destruct (smtp_connect w (host self)) as [[code msg]|[c d]]; cbn.
  - destruct (truthy (user self) && truthy (password self)); cbn.
    + destruct (smtp_login w _ _) as [?|[c d]]; cbn.
      * destruct (smtp_sendmail w _ _ _) as [[|? ?]|[c d]]; cbn;
          [| |destruct c; cbn]; event_not_in.
      * destruct c; cbn; event_not_in.
    + destruct (smtp_sendmail w _ _ _) as [[|? ?]|[c d]]; cbn;
        [| |destruct c; cbn]; event_not_in.
  - destruct c; cbn; event_not_in.
Qed.

(** C2. Whatever the session part did, returned or raised, [quit] is
    called once, after it. When [quit] returns, or raises
    [SMTPServerDisconnected], the call ends as the session part ended;
    when [quit] raises anything else, that exception reaches the caller. *)
Theorem teardown_on_every_exit :
  let body := run (sendMessage_session self w subject text) in
  let out := run (_sendMessage self w subject text) in
  calls_of (out.1) = calls_of (body.1) ++ [Quit] ∧
  (Quit ∉ calls_of (body.1)) ∧
  match smtp_quit w (calls_of (body.1)) with
  | Return _ => out.2 = body.2
  | Raise e =>
    match class e with
    | SMTPServerDisconnected => out.2 = body.2
    | _ => out.2 = Raise e
    end
  end.
Proof.
  intros body out.
  split; [|split; [apply session_never_quits|]].
  - subst out body. unfold run, _sendMessage, try_finally.
    destruct (sendMessage_session self w subject text []) as [tr r].
    unfold sendMessage_finally, try_except_else, bind, invoke, log, ret, raise.
    destruct (smtp_quit w (calls_of tr)) as [q|[c d]]; cbn [fst].
    + rewrite !calls_of_app. cbn. by rewrite app_nil_r.
    + destruct c; cbn [class fst]; by rewrite calls_of_app.
  - subst out body. unfold run, _sendMessage, try_finally.
    destruct (sendMessage_session self w subject text []) as [tr r].
    unfold sendMessage_finally, try_except_else, bind, invoke, log, ret, raise.
    cbn [fst snd].
    destruct (smtp_quit w (calls_of tr)) as [q|[c d]]; [reflexivity|].
    destruct c; reflexivity.
Qed.

(** Whatever [connect] raises reaches the caller when the teardown is clean,
    and [quit] is the only other call. An exception that is not an
    [SMTPException], a socket error for one, matches no clause: it is
    re-raised without an error record. *)
Lemma connect_failure_propagates e :
  smtp_connect w (host self) = Raise e →
  quit_clean (smtp_quit w [Connect (host self)]) →
  let out := run (_sendMessage self w subject text) in
  out.2 = Raise e ∧
  calls_of (out.1) = [Connect (host self); Quit] ∧
  (is_SMTPException (class e) = false →
   ∀ fmt args, Log ERROR fmt args ∉ out.1).
Proof.
  intros Hc Hq. unfold_send. rewrite Hc. destruct e as [c d].
  destruct c; cbn;
    (destruct (smtp_quit w [Connect (host self)]) as [q|[c' d']];
     [|cbn in Hq; subst c']; cbn;
     repeat split; try done; try (intros; event_not_in)).
Qed.

(** C3, as the code has it. When the session opens, the login (if it is
    attempted) succeeds, [sendmail] returns the recipients the relay
    refused and the teardown is clean, the call does not raise and yields
    [None]: the refused recipients are not returned. [sendmail] was given
    the recipient string split at [", "]; the refused recipients, when
    there are any, are the argument of one warning record; the record of
    success is written and no error record is. *)
Theorem partial_rejection_is_logged r d :
  smtp_connect w (host self) = Return r →
  (truthy (user self) && truthy (password self) = true →
   ∃ r', smtp_login w (default "" (user self)) (default "" (password self))
         = Return r') →
  smtp_sendmail w (fromaddr self) (str_split ", " (toaddr self))
    (as_string w (envelope self w subject text)) = Return d →
  quit_clean
    (smtp_quit w (calls_of (run (sendMessage_session self w subject text)).1)) →
  let out := run (_sendMessage self w subject text) in
  out.2 = Return PyNone ∧
  Called (Sendmail (fromaddr self) (str_split ", " (toaddr self))
            (as_string w (envelope self w subject text))) ∈ out.1 ∧
  (d ≠ [] →
   Log WARNING "Email to '%s' failed to following recipients: %r"
     [AStr (toaddr self); ARefused d] ∈ out.1) ∧
  (d = [] → ∀ fmt args, Log WARNING fmt args ∉ out.1) ∧
  Log DEBUG "Email '%s' successfully sent" [AStr subject] ∈ out.1 ∧
  (∀ fmt args, Log ERROR fmt args ∉ out.1).
Proof.
  intros Hc Hl Hs Hq. revert Hq. unfold_send. rewrite Hc. cbn.
  destruct (truthy (user self) && truthy (password self)); cbn.
  - destruct (Hl eq_refl) as [r' ->]. cbn. rewrite Hs.
    destruct d as [|x d']; cbn; intros Hq; finish_send Hq.
  - rewrite Hs.
    destruct d as [|x d']; cbn; intros Hq; finish_send Hq.
Qed.

(** The events of a call are those of its session part, then [quit] and
    at most the record of the disconnection. *)
Lemma send_events :
  ∃ rest,
    (run (_sendMessage self w subject text)).1
    = (run (sendMessage_session self w subject text)).1
        ++ Called Quit :: rest ∧
    ∀ ev, ev ∈ rest → ∃ args,
      ev = Log DEBUG "Disconnected from '%s', response %i: %s" args.
Proof.
  unfold run, _sendMessage, try_finally.
  destruct (sendMessage_session self w subject text []) as [tr r].
  unfold sendMessage_finally, try_except_else, bind, invoke, log, ret, raise.
  destruct (smtp_quit w (calls_of tr)) as [q|[c d]]; cbn [fst].
  - eexists. split; [by rewrite <- app_assoc|].
    intros ev Hev. apply list_elem_of_singleton in Hev as ->. by eexists.
  - exists []. split; [by destruct c|]. intros ev Hev. by apply elem_of_nil in Hev.
Qed.

(** A call ends as its session part, or with what [quit] raised. *)
Lemma send_result :
  (run (_sendMessage self w subject text)).2
  = (run (sendMessage_session self w subject text)).2 ∨
  ∃ cs e, smtp_quit w cs = Raise e ∧
          (run (_sendMessage self w subject text)).2 = Raise e.
Proof.
  unfold run, _sendMessage, try_finally.
  destruct (sendMessage_session self w subject text []) as [tr r].
  unfold sendMessage_finally, try_except_else, bind, invoke, log, ret, raise.
  destruct (smtp_quit w (calls_of tr)) as [q|[c d]] eqn:Hq; cbn [snd];
    [by left|].
  destruct c; cbn [class snd]; first [by left | right; eauto].
Qed.

Lemma session_login_iff :
  (∃ u p, Called (Login u p)
          ∈ (run (sendMessage_session self w subject text)).1) ↔
  truthy (user self) && truthy (password self) = true ∧
  ∃ r, smtp_connect w (host self) = Return r.
Proof.
  unfold_send.
  destruct (smtp_connect w (host self)) as [[code msg]|[c d]]; cbn;
    [destruct (truthy (user self) && truthy (password self)); cbn;
     [destruct (smtp_login w _ _) as [?|[c d]]; cbn|];
     [destruct (smtp_sendmail w _ _ _) as [[|? ?]|[c d]]; cbn;
        [| |destruct c; cbn]
     |destruct c; cbn
     |destruct (smtp_sendmail w _ _ _) as [[|? ?]|[c d]]; cbn;
        [| |destruct c; cbn]]
    |destruct c; cbn];
    (split;
     [ intros (? & ? & Hin);
       first [ by (split; eauto) | exfalso; revert Hin; event_not_in ]
     | intros [Hb [? Hr]];
       first [ discriminate Hb | discriminate Hr
             | eexists _, _; event_in ] ]).
Qed.

Lemma session_no_auth_error :
  auth_error_from_login_only w →
  truthy (user self) && truthy (password self) = false →
  (∀ e, (run (sendMessage_session self w subject text)).2 = Raise e →
        class e ≠ SMTPAuthenticationError) ∧
  (∀ args,
     Log ERROR "Failed to authenticate with host '%s' user '%s'" args
     ∉ (run (sendMessage_session self w subject text)).1).
Proof.
  intros (Hconn & Hsend & _) Hb. unfold_send. rewrite Hb.
  destruct (smtp_connect w (host self)) as [[code msg]|[c d]] eqn:Hc; cbn.
  - destruct (smtp_sendmail w _ _ _) as [[|? ?]|[c d]] eqn:Hs; cbn;
      [| |specialize (Hsend _ _ _ _ Hs); destruct c; cbn
           ; try (by destruct Hsend)];
      (split; [intros e [= <-]; by cbn || done | intros; event_not_in]).
  - specialize (Hconn _ _ Hc).
    destruct c; cbn; try (by destruct Hconn);
      (split; [by intros e [= <-] | intros; event_not_in]).
Qed.

(** C7. [login] is called exactly when the user name and the password
    are both set and the session opened, which is when the step of the
    protocol is reached. When one of the two is missing, [login] is not
    called, no record of a failed authentication is written, and, the
    library raising [SMTPAuthenticationError] from [login] only, the call
    does not end with an authentication error. *)
Theorem login_iff_credentials :
  auth_error_from_login_only w →
  let out := run (_sendMessage self w subject text) in
  ((∃ u p, Called (Login u p) ∈ out.1) ↔
     truthy (user self) && truthy (password self) = true ∧
     ∃ r, smtp_connect w (host self) = Return r) ∧
  (truthy (user self) && truthy (password self) = false →
     (∀ u p, Called (Login u p) ∉ out.1) ∧
     (∀ e, out.2 = Raise e → class e ≠ SMTPAuthenticationError) ∧
     (∀ args,
        Log ERROR "Failed to authenticate with host '%s' user '%s'" args
        ∉ out.1)).
Proof.
  intros Hlib out.
  destruct send_events as (rest & Hev & Hrest). fold out in Hev.
  assert (Hiff : (∃ u p, Called (Login u p) ∈ out.1) ↔
                 truthy (user self) && truthy (password self) = true ∧
                 ∃ r, smtp_connect w (host self) = Return r).
  { rewrite <- session_login_iff, Hev. split.
    - intros (u & p & H). exists u, p.
      apply elem_of_app in H as [H|H]; [done|].
      apply elem_of_cons in H as [H|H]; [discriminate H|].
      destruct (Hrest _ H) as [args Hargs]. discriminate Hargs.
    - intros (u & p & H). exists u, p. apply elem_of_app. by left. }
  split; [exact Hiff|].
  intros Hb.
  destruct (session_no_auth_error Hlib Hb) as [Hexn Hlog].
  split; [|split].
  - intros u p H. destruct Hiff as [Hiff _].
    destruct (Hiff (ex_intro _ u (ex_intro _ p H))) as [Hb' _].
    rewrite Hb in Hb'. discriminate Hb'.
  - intros e He.
    destruct send_result as [Hr | (cs & e' & Hq & Hr)]; fold out in Hr.
    + apply Hexn. by rewrite <- Hr.
    + rewrite Hr in He. injection He as <-.
      destruct Hlib as (_ & _ & Hquit). by apply (Hquit cs).
  - intros args H. rewrite Hev in H.
    apply elem_of_app in H as [H|H]; [by apply (Hlog args)|].
    apply elem_of_cons in H as [H|H]; [discriminate H|].
    destruct (Hrest _ H) as [args' Hargs]. discriminate Hargs.
Qed.
End Transport.

(** ** The transport at the sample environments *)

(** C3, counterexample. The relay accepts the session and refuses one of
    the two recipients, a proper part of the recipient string split at
    [", "]; the call does not raise, and what it yields is [None], not the
    list of the refused addresses. *)
Lemma send_yields_none_not_rejections :
  let self := sample_action None in
  let out := run (_sendMessage self world_partial "subject" "text") in
  str_split ", " (toaddr self) = ["root@example.org"; "admin@example.org"] ∧
  smtp_sendmail world_partial (fromaddr self) (str_split ", " (toaddr self))
    (as_string world_partial (envelope self world_partial "subject" "text"))
  = Return [("admin@example.org", (550, "no such user"))] ∧
  rejected_addresses [("admin@example.org", (550, "no such user"))]
  = ["admin@example.org"] ∧
  out.2 = Return PyNone ∧
  out.2 ≠ Return (PyList ["admin@example.org"]).
Proof.
  split; [by vm_compute|].
  split; [reflexivity|].
  split; [reflexivity|].
  split; [by vm_compute|].
  vm_compute. discriminate.
Qed.

Lemma partial_rejection_is_logged_witness :
  let self := sample_action None in
  let d := [("admin@example.org", (550, "no such user"))] in
  let out := run (_sendMessage self world_partial "subject" "text") in
  out.2 = Return PyNone ∧
  Called (Sendmail (fromaddr self) (str_split ", " (toaddr self))
            (as_string world_partial
               (envelope self world_partial "subject" "text"))) ∈ out.1 ∧
  (d ≠ [] →
   Log WARNING "Email to '%s' failed to following recipients: %r"
     [AStr (toaddr self); ARefused d] ∈ out.1) ∧
  (d = [] → ∀ fmt args, Log WARNING fmt args ∉ out.1) ∧
  Log DEBUG "Email '%s' successfully sent" [AStr "subject"] ∈ out.1 ∧
  (∀ fmt args, Log ERROR fmt args ∉ out.1).
Proof.
  apply (partial_rejection_is_logged (sample_action None) world_partial
           "subject" "text" (220, "ready")
           [("admin@example.org", (550, "no such user"))]).
  - reflexivity.
  - intros H. discriminate H.
  - reflexivity.
  - exact I.
Defined.

(** C6, at an unreachable host. [connect] fails with the socket error of
    the refused connection. No clause of the [try] statement matches it, the
    clause that logs the host being written for [SMTPConnectError], which
    [connect] does not raise: the caller receives the socket error and the
    teardown reports nothing further, but no record is written, so the host
    is not logged. *)
Theorem unreachable_host_not_logged :
  let self := sample_action None in
  let e := Exn OSError "[Errno 111] Connection refused" in
  let out := run (_sendMessage self world_unreachable "subject" "text") in
  smtp_connect world_unreachable (host self) = Raise e ∧
  is_SMTPException (class e) = false ∧
  out = ([Called (Connect (host self)); Called Quit], Raise e) ∧
  (Log ERROR "Error connecting to host '%s'" [AStr (host self)] ∉ out.1) ∧
  (∀ lvl fmt args, Log lvl fmt args ∉ out.1).
Proof.
  split; [reflexivity|].
  split; [reflexivity|].
  split; [by vm_compute|].
  split; [|intros lvl fmt args]; event_not_in.
Qed.

Lemma login_iff_credentials_witness :
  let self := sample_action_user_only in
  let out := run (_sendMessage self world_partial "subject" "text") in
  ((∃ u p, Called (Login u p) ∈ out.1) ↔
     truthy (user self) && truthy (password self) = true ∧
     ∃ r, smtp_connect world_partial (host self) = Return r) ∧
  (truthy (user self) && truthy (password self) = false →
     (∀ u p, Called (Login u p) ∉ out.1) ∧
     (∀ e, out.2 = Raise e → class e ≠ SMTPAuthenticationError) ∧
     (∀ args,
        Log ERROR "Failed to authenticate with host '%s' user '%s'" args
        ∉ out.1)).
Proof.
  apply (login_iff_credentials sample_action_user_only world_partial
           "subject" "text").
  repeat split; intros; discriminate.
Defined.

(** * Further properties *)

(** ** The recipient list *)

Lemma length_append (a b : string) :
  String.length (a +:+ b) = (String.length a + String.length b)%nat.
Proof.
  induction a as [|c a IH]; [reflexivity|].
  change (S (String.length (a +:+ b))
          = S (String.length a + String.length b)). by rewrite IH.
Qed.

Lemma prefix_split (a s : string) :
  String.prefix a s = true → ∃ rest, s = a +:+ rest.
Proof.
  revert a. induction s as [|c s IH]; intros [|x a] H.
  - by exists "".
  - discriminate H.
  - by exists (String c s).
  - simpl in H. destruct (Ascii.ascii_dec x c) as [->|]; [|discriminate H].
    destruct (IH a H) as [rest ->]. by exists rest.
Qed.

(** Dropping the rest of a separator occurrence. *)
Lemma split_go_skip (sep t cur rest : string) :
  split_go sep (String.length t) cur (t +:+ rest) = split_go sep O cur rest.
Proof. induction t as [|c t IH]; [reflexivity|exact IH]. Qed.

Lemma split_go_nonempty (sep : string) (k : nat) (cur s : string) :
  split_go sep k cur s ≠ [].
Proof.
  revert k cur. induction s as [|c s IH]; intros k cur; [done|].
  destruct k as [|k]; [|apply IH].
  cbn [split_go]. destruct (String.prefix sep (String c s)); [done|apply IH].
Qed.

Lemma str_join_cons (sep p : string) (ps : list string) :
  ps ≠ [] → str_join sep (p :: ps) = p +:+ sep +:+ str_join sep ps.
Proof. by destruct ps. Qed.

Lemma split_go_join (sep : string) :
  sep ≠ "" →
  ∀ n s cur, (String.length s ≤ n)%nat →
             str_join sep (split_go sep O cur s) = cur +:+ s.
Proof.
  intros Hsep n. induction n as [|n IH]; intros s cur Hn.
  - destruct s; [|cbn in Hn; lia]. cbn. by rewrite append_empty_r.
  - destruct s as [|c s]; [cbn; by rewrite append_empty_r|].
    cbn [split_go].
    destruct (String.prefix sep (String c s)) eqn:Hp.
    + apply prefix_split in Hp as [rest Hrest].
      destruct sep as [|x sep']; [done|].
      injection Hrest as -> ->.
      cbn [String.length Nat.pred]. rewrite split_go_skip.
      rewrite str_join_cons by apply split_go_nonempty.
      rewrite IH.
      * change (cur +:+ String x sep' +:+ "" +:+ rest)
          with (cur +:+ String x sep' +:+ rest).
        change (String x (sep' +:+ rest)) with (String x sep' +:+ rest).
        reflexivity.
      * cbn in Hn. rewrite length_append in Hn. lia.
    + rewrite IH by (cbn in Hn; lia).
      rewrite append_assoc. reflexivity.
Qed.

Lemma prefix_append (a rest : string) : String.prefix a (a +:+ rest) = true.
Proof.
  induction a as [|x a IH]; [by destruct rest|].
  change (String x a +:+ rest) with (String x (a +:+ rest)).
  cbn [String.prefix]. destruct (Ascii.ascii_dec x x); [exact IH|done].
Qed.

(** The test [occurs] decides [contains]. *)
Lemma occurs_contains (sep s : string) :
  occurs sep s = true ↔ contains sep s.
Proof.
  split.
  - induction s as [|c s IH]; cbn [occurs]; intros H.
    + rewrite orb_false_r in H. apply prefix_split in H as [rest ->].
      by exists "", rest.
    + apply orb_true_iff in H as [H|H].
      * apply prefix_split in H as [rest ->]. by exists "", rest.
      * destruct (IH H) as (pre & post & ->). by exists (String c pre), post.
  - intros (pre & post & ->). induction pre as [|c pre IH].
    + change ("" +:+ sep +:+ post) with (sep +:+ post).
      destruct (sep +:+ post) eqn:E; cbn [occurs]; rewrite <- E;
        by rewrite prefix_append.
    + change (String c pre +:+ sep +:+ post)
        with (String c (pre +:+ sep +:+ post)).
      cbn [occurs]. rewrite IH. apply orb_true_r.
Qed.

Lemma split_go_no_separator (sep s cur : string) :
  occurs sep s = false → split_go sep O cur s = [cur +:+ s].
Proof.
  revert cur. induction s as [|c s IH]; intros cur Hno.
  - cbn. by rewrite append_empty_r.
  - cbn [occurs] in Hno. apply orb_false_iff in Hno as [Hp Hs].
    cbn [split_go]. rewrite Hp, IH by done. by rewrite append_assoc.
Qed.

(** X1. Splitting the recipient string at [", "] loses nothing: the list
    handed to [sendmail] is never empty, and joined with [", "] it is the
    configured string again. *)
Theorem recipients_round_trip (self : SMTPAction) :
  let recipients := str_split ", " (toaddr self) in
  recipients ≠ [] ∧ str_join ", " recipients = toaddr self.
Proof.
  split; [apply split_go_nonempty|].
  unfold str_split.
  by rewrite (split_go_join ", " ltac:(done) (String.length (toaddr self))).
Qed.

(** X2. A recipient string in which [", "] does not occur, a list written
    with commas only for one, is a single recipient: the whole string. *)
Theorem recipients_without_separator (self : SMTPAction) :
  occurs ", " (toaddr self) = false →
  str_split ", " (toaddr self) = [toaddr self].
Proof. intros H. unfold str_split. by rewrite split_go_no_separator. Qed.

Lemma recipients_without_separator_witness :
  str_split ", " (toaddr sample_action_commas)
  = [toaddr sample_action_commas].
Proof.
  apply (recipients_without_separator sample_action_commas). reflexivity.
Defined.

(** ** Failure paths of the transport *)

(** Splits on every reply the session part can receive. *)
Ltac session_cases self w :=
  unfold_send;
  destruct (smtp_connect w (host self)) as [[? ?]|[[] ?]] eqn:Hconnect; cbn;
    [destruct (truthy (user self) && truthy (password self)) eqn:Hboth; cbn;
     [destruct (smtp_login w _ _) as [?|[[] ?]] eqn:Hlogin; cbn;
      [destruct (smtp_sendmail w _ _ _) as [[|? ?]|[[] ?]] eqn:Hsend; cbn|..]
     |destruct (smtp_sendmail w _ _ _) as [[|? ?]|[[] ?]] eqn:Hsend; cbn]
    |..].

Section Failure_paths.
Variables (self : SMTPAction) (w : World) (subject text : string).

Lemma send_calls :
  calls_of (run (_sendMessage self w subject text)).1
  = calls_of (run (sendMessage_session self w subject text)).1 ++ [Quit].
Proof.
  unfold run, _sendMessage, try_finally.
  destruct (sendMessage_session self w subject text []) as [tr r].
  unfold sendMessage_finally, try_except_else, bind, invoke, log, ret, raise.
  destruct (smtp_quit w (calls_of tr)) as [q|[c d]]; cbn [fst].
  - rewrite !calls_of_app. cbn. by rewrite app_nil_r.
  - destruct c; cbn [class fst]; by rewrite calls_of_app.
Qed.

Lemma teardown_outcome :
  let body := run (sendMessage_session self w subject text) in
  let out := run (_sendMessage self w subject text) in
  match smtp_quit w (calls_of (body.1)) with
  | Return _ => out.2 = body.2
  | Raise e =>
    match class e with
    | SMTPServerDisconnected => out.2 = body.2
    | _ => out.2 = Raise e
    end
  end.
Proof.
  unfold run, _sendMessage, try_finally.
  destruct (sendMessage_session self w subject text []) as [tr r].
  unfold sendMessage_finally, try_except_else, bind, invoke, log, ret, raise.
  cbn [fst snd].
  destruct (smtp_quit w (calls_of tr)) as [q|[c d]]; [reflexivity|].
  destruct c; reflexivity.
Qed.

Lemma session_calls_eq :
  calls_of (run (sendMessage_session self w subject text)).1
  = session_calls self w subject text.
Proof.
  unfold session_calls. session_cases self w; reflexivity.
Qed.

(** X3. The calls of a notification on its session, in order: [connect];
    [login] when both credentials are set and the session opened;
    [sendmail], with the configured sender, the split recipient string and
    the message built from subject and text, when nothing before it raised;
    and [quit] last, in every case. There is never a second [sendmail]. *)
Theorem call_sequence :
  calls_of (run (_sendMessage self w subject text)).1
  = session_calls self w subject text ++ [Quit].
Proof. by rewrite send_calls, session_calls_eq. Qed.

Lemma session_error_records :
  let body := run (sendMessage_session self w subject text) in
  (∀ fmt args, Log ERROR fmt args ∈ body.1 →
     (∃ rest, args = AStr (host self) :: rest) ∧
     ∃ e, body.2 = Raise e ∧ is_SMTPException (class e) = true) ∧
  (∀ e, body.2 = Raise e → is_SMTPException (class e) = true →
        ∃ fmt args, Log ERROR fmt args ∈ body.1).
Proof.
  session_cases self w;
    (split;
     [ intros fmt args Hin; cbn in Hin;
       repeat (apply elem_of_cons in Hin as [Hin|Hin];
               [first [ discriminate Hin
                      | injection Hin as -> ->;
                        split; [by eexists|];
                        eexists; split; reflexivity ]|]);
       by apply elem_of_nil in Hin
     | intros e He Hcls;
       first [ discriminate He
             | injection He as <-; first [ discriminate Hcls
                                         | eexists _, _; event_in ] ] ]).
Qed.

(** An error record of the call is one of its session part: the teardown
    writes none. *)
Lemma error_record_of_session fmt args :
  Log ERROR fmt args ∈ (run (_sendMessage self w subject text)).1 ↔
  Log ERROR fmt args ∈ (run (sendMessage_session self w subject text)).1.
Proof.
  destruct (send_events self w subject text) as (rest & -> & Hrest).
  rewrite elem_of_app, elem_of_cons. split; [|by left].
  intros [H|[H|H]]; [done|discriminate H|].
  destruct (Hrest _ H) as [args' Hargs]. discriminate Hargs.
Qed.

(** X4. An error record is written exactly when [connect], [login] or
    [sendmail] raised an [SMTPException], and every error record names the
    host first. An exception of another kind, a socket error for one,
    reaches the caller without any error record, and so does a failure of
    the teardown. *)
Theorem error_record_iff_smtp_exception :
  let body := run (sendMessage_session self w subject text) in
  let out := run (_sendMessage self w subject text) in
  ((∃ fmt args, Log ERROR fmt args ∈ out.1) ↔
   ∃ e, body.2 = Raise e ∧ is_SMTPException (class e) = true) ∧
  (∀ fmt args, Log ERROR fmt args ∈ out.1 →
               ∃ rest, args = AStr (host self) :: rest).
Proof.
  intros body out. destruct session_error_records as [Hlog Hexn].
  fold body in Hlog, Hexn.
  split; [split|].
  - intros (fmt & args & H). apply error_record_of_session in H.
    by destruct (Hlog fmt args H) as [_ He].
  - intros (e & He & Hcls). destruct (Hexn e He Hcls) as (fmt & args & H).
    exists fmt, args. by apply error_record_of_session.
  - intros fmt args H. apply error_record_of_session in H.
    by destruct (Hlog fmt args H) as [Hhost _].
Qed.

(** X5. When the credentials are set, the session opens and [login] raises
    [SMTPAuthenticationError], the message is not sent: the calls are
    [connect], [login] and [quit] only, one error record names the host and
    the user, and with a clean teardown the caller receives the
    authentication error itself. *)
Theorem authentication_failure r e :
  smtp_connect w (host self) = Return r →
  truthy (user self) && truthy (password self) = true →
  smtp_login w (default "" (user self)) (default "" (password self))
  = Raise e →
  class e = SMTPAuthenticationError →
  quit_clean
    (smtp_quit w [ Connect (host self);
                   Login (default "" (user self))
                     (default "" (password self)) ]) →
  let out := run (_sendMessage self w subject text) in
  out.2 = Raise e ∧
  calls_of (out.1)
  = [ Connect (host self);
      Login (default "" (user self)) (default "" (password self));
      Quit ] ∧
  Log ERROR "Failed to authenticate with host '%s' user '%s'"
    [AStr (host self); AOptStr (user self)] ∈ out.1 ∧
  (∀ args, Log DEBUG "Email '%s' successfully sent" args ∉ out.1).
Proof.
  intros Hc Hb Hl He Hq. unfold_send. rewrite Hc. cbn. rewrite Hb. cbn.
  rewrite Hl. cbn. rewrite He. cbn.
  destruct (smtp_quit w _) as [q|[c d]]; [|cbn in Hq; subst c]; cbn;
    (split; [done|]; split; [done|]; split; [event_in|];
     intros; event_not_in).
Qed.

(** X6. When [sendmail] raises an [SMTPException] other than the two with a
    clause of their own, all recipients refused for one, the error record
    names the host, the sender and the recipient string, no record of
    success is written, and with a clean teardown the caller receives that
    exception. *)
Theorem send_failure_logged r e :
  smtp_connect w (host self) = Return r →
  (truthy (user self) && truthy (password self) = true →
   ∃ r', smtp_login w (default "" (user self)) (default "" (password self))
         = Return r') →
  smtp_sendmail w (fromaddr self) (str_split ", " (toaddr self))
    (as_string w (envelope self w subject text)) = Raise e →
  is_SMTPException (class e) = true →
  class e ≠ SMTPConnectError →
  class e ≠ SMTPAuthenticationError →
  quit_clean (smtp_quit w (session_calls self w subject text)) →
  let out := run (_sendMessage self w subject text) in
  out.2 = Raise e ∧
  Log ERROR "Error sending mail to host '%s' from '%s' to '%s'"
    [AStr (host self); AStr (fromaddr self); AStr (toaddr self)] ∈ out.1 ∧
  (∀ args, Log DEBUG "Email '%s' successfully sent" args ∉ out.1).
Proof.
  intros Hc Hl Hs Hsmtp Hnc Hna Hq. revert Hq.
  unfold session_calls. unfold_send. rewrite Hc. cbn.
  destruct e as [c d]. cbn in Hsmtp, Hnc, Hna.
  destruct (truthy (user self) && truthy (password self)); cbn.
  - destruct (Hl eq_refl) as [r' ->]. cbn. rewrite Hs. cbn.
    destruct c; try done; cbn; intros Hq;
      (destruct (smtp_quit w _) as [q|[c' d']]; [|cbn in Hq; subst c']; cbn;
       (split; [done|]; split; [event_in|]; intros; event_not_in)).
  - rewrite Hs. cbn.
    destruct c; try done; cbn; intros Hq;
      (destruct (smtp_quit w _) as [q|[c' d']]; [|cbn in Hq; subst c']; cbn;
       (split; [done|]; split; [event_in|]; intros; event_not_in)).
Qed.

Lemma session_returned p :
  (run (sendMessage_session self w subject text)).2 = Return p →
  p = PyNone ∧
  Called (Sendmail (fromaddr self) (str_split ", " (toaddr self))
            (as_string w (envelope self w subject text)))
  ∈ (run (sendMessage_session self w subject text)).1 ∧
  Log DEBUG "Email '%s' successfully sent" [AStr subject]
  ∈ (run (sendMessage_session self w subject text)).1.
Proof.
  session_cases self w; intros H; try discriminate H;
    injection H as <-; (split; [done|]; split; event_in).
Qed.

(** X7. A notification can be delivered and its call still fail: when the
    session part returned and [quit] then raises anything but
    [SMTPServerDisconnected], the caller receives that exception, although
    [sendmail] was called, the record of success is written and no error
    record is. *)
Theorem delivered_but_teardown_fails e :
  (run (sendMessage_session self w subject text)).2 = Return PyNone →
  smtp_quit w (session_calls self w subject text) = Raise e →
  class e ≠ SMTPServerDisconnected →
  let out := run (_sendMessage self w subject text) in
  out.2 = Raise e ∧
  Called (Sendmail (fromaddr self) (str_split ", " (toaddr self))
            (as_string w (envelope self w subject text))) ∈ out.1 ∧
  Log DEBUG "Email '%s' successfully sent" [AStr subject] ∈ out.1 ∧
  (∀ fmt args, Log ERROR fmt args ∉ out.1).
Proof.
  intros Hret Hq Hcls out.
  destruct (session_returned _ Hret) as (_ & Hsend & Hok).
  pose proof teardown_outcome as Hout. cbn zeta in Hout.
  rewrite session_calls_eq, Hq in Hout. fold out in Hout.
  destruct (send_events self w subject text) as (rest & Hev & _).
  fold out in Hev.
  split; [by destruct e as [[] ?]|].
  split; [rewrite Hev, elem_of_app; by left|].
  split; [rewrite Hev, elem_of_app; by left|].
  intros fmt args H. apply error_record_of_session in H.
  destruct session_error_records as [Hlog _].
  destruct (Hlog fmt args H) as (_ & e' & He' & _).
  rewrite Hret in He'. discriminate He'.
Qed.
End Failure_paths.

(** ** Failure paths of the ban notification *)

(** Renders a parsed format over a mapping whose reads, returning or
    raising, are given by equations in the context. *)
Ltac render_any g :=
  cbn [render];
  repeat match goal with
         | H : g ?k = _ |- context [g ?k] =>
           rewrite H; cbn [render convert py_str]
         end.

(** Splits on the configured mode: unset, one of the five keys of
    [messages['ban']], or any other string. *)
Ltac mode_cases mode :=
  let k := fresh "k" in
  destruct mode as [k|];
  [ destruct (decide (k = "head")) as [->|];
    [|destruct (decide (k = "tail")) as [->|];
      [|destruct (decide (k = "matches")) as [->|];
        [|destruct (decide (k = "ipmatches")) as [->|];
          [|destruct (decide (k = "ipjailmatches")) as [->|];
            [|rewrite (messages_ban_get_other k) by done]]]]]
  | ].

Lemma ban_message_this (w : World) (σ : Store) :
  this (ban_message w σ).1 = this σ.
Proof. reflexivity. Qed.

(** A ban whose message was composed goes on as [_sendMessage] does with
    that message. *)
Lemma ban_run (w : World) (σ : Store) (a : string * string) :
  (ban_message w σ).2 = Return a →
  run (ban w σ).2 = run (_sendMessage (this σ) w a.1 a.2).
Proof.
  intros H. unfold ban. rewrite <- (ban_message_this w σ).
  destruct (ban_message w σ) as [σ' args].
  cbn [fst snd] in *. by subst args.
Qed.

(** Formatting reads the mapping at the keys of the format only. *)
Lemma render_ext (ps : list piece) (g g' : string → outcome value) :
  (∀ k, k ∈ hole_keys ps → g k = g' k) → render ps g = render ps g'.
Proof.
  induction ps as [|[c|k c] ps IH]; cbn [render hole_keys]; intros H.
  - reflexivity.
  - by rewrite IH.
  - rewrite <- (H k) by apply list_elem_of_here.
    rewrite IH; [reflexivity|].
    intros k' Hk'. apply H. by apply list_elem_of_further.
Qed.

Lemma py_format_ext (fmt : string) (g g' : string → outcome value) :
  (∀ k, k ∈ format_keys fmt → g k = g' k) → py_format fmt g = py_format fmt g'.
Proof.
  unfold py_format, format_keys.
  destruct (parse_format InText fmt); [apply render_ext|reflexivity].
Qed.

(** Replaces the keys of a closed format string by their list. *)
Ltac eval_keys H :=
  match type of H with
  | context [format_keys ?fmt] =>
    let ks := eval vm_compute in (format_keys fmt) in
    change (format_keys fmt) with ks in H
  end.

(** The body of a ban reads, besides the context values, the address, the
    attempt count and the three match keys, whatever the mode string. *)
Lemma ban_template_keys (self : SMTPAction) k :
  k ∈ format_keys (ban_template self) →
  k ∈ ["jailname"; "hostname"; "bantime"; "ip"; "failures"; "matches";
       "ipmatches"; "ipjailmatches"].
Proof.
  unfold ban_template, str_join_empty; cbn [foldr].
  destruct (matches self) as [m|];
    [ destruct (decide (m = "head")) as [->|];
      [|destruct (decide (m = "tail")) as [->|];
        [|destruct (decide (m = "matches")) as [->|];
          [|destruct (decide (m = "ipmatches")) as [->|];
            [|destruct (decide (m = "ipjailmatches")) as [->|];
              [|rewrite (messages_ban_get_other m) by done]]]]]
    | ];
    intros Hk; eval_keys Hk;
    repeat (apply elem_of_cons in Hk as [->|Hk]; [event_in|]);
    by apply elem_of_nil in Hk.
Qed.

Section Ban_failures.
Variables (jail : Jail) (name srv : string) (usr pwd : option string)
          (sendername sender dest : string) (mode : option string).
Variables (w : World) (ev : gmap string value).

Let self : SMTPAction :=
  __init__ jail name srv usr pwd sendername sender dest mode.

Let merged : gmap string value := dict_update w ev (message_values self).

Let after_update : gmap string value :=
  <["bantime" := VInt (getBanTime w)]>
  (<["hostname" := VStr (gethostname w)]>
  (<["jailname" := VStr (jail_name jail)]> ev)).

Lemma getitem_context :
  dict_getitem merged "jailname" = Return (VStr (jail_name jail)) ∧
  dict_getitem merged "hostname" = Return (VStr (gethostname w)) ∧
  dict_getitem merged "bantime" = Return (VInt (getBanTime w)).
Proof.
  unfold dict_getitem, merged, self.
  rewrite merged_jailname, merged_hostname, merged_bantime. done.
Qed.

Lemma getitem_event k :
  k ≠ "jailname" → k ≠ "hostname" → k ≠ "bantime" →
  dict_getitem merged k
  = match ev !! k with
    | Some v => Return v
    | None => Raise (Exn KeyError k)
    end.
Proof.
  intros. unfold dict_getitem, merged, self. by rewrite merged_other.
Qed.

(** X8. Event data without the address: [ban] raises [KeyError] for [ip]
    while it formats the subject, before it opens a session. Nothing is
    sent or logged, and the dictionary of the caller has been updated all
    the same. *)
Theorem ban_without_ip :
  ev !! "ip" = None →
  let r := ban w {| this := self; aInfo := ev |} in
  run (r.2) = ([], Raise (Exn KeyError "ip")) ∧
  aInfo (r.1) = after_update.
Proof.
  intros Hip. unfold ban, ban_message; cbn [fst snd this aInfo].
  split; [|apply dict_update_init].
  fold merged.
  destruct getitem_context as (Gj & Gh & Gb).
  pose proof (getitem_event "ip" ltac:(done) ltac:(done) ltac:(done)) as Gip.
  rewrite Hip in Gip.
  set (g := dict_getitem merged) in *. clearbody g.
  unfold py_format at 1. eval_parse. render_any g.
  reflexivity.
Qed.

(** X9. Event data with the address but without a usable attempt count:
    the subject is formatted, the body is not. [ban] raises [KeyError] for
    [failures] when the key is missing and a [TypeError] when its value is
    [None] or a string, whatever the match mode, and opens no session. *)
Theorem ban_rejects_missing_or_text_failures ip :
  ev !! "ip" = Some ip →
  (ev !! "failures" = None ∨ ev !! "failures" = Some VNone ∨
   ∃ s, ev !! "failures" = Some (VStr s)) →
  ∃ e,
    run (ban w {| this := self; aInfo := ev |}).2 = ([], Raise e) ∧
    class e = match ev !! "failures" with
              | None => KeyError
              | Some _ => TypeError
              end ∧
    (ev !! "failures" = None → e = Exn KeyError "failures").
Proof.
  intros Hip Hf. unfold ban, ban_message; cbn [fst snd this aInfo].
  fold merged.
  destruct getitem_context as (Gj & Gh & Gb).
  pose proof (getitem_event "ip" ltac:(done) ltac:(done) ltac:(done)) as Gip.
  pose proof (getitem_event "failures" ltac:(done) ltac:(done) ltac:(done))
    as Gf.
  rewrite Hip in Gip.
  set (g := dict_getitem merged) in *. clearbody g.
  unfold py_format at 1. eval_parse. render_any g.
  unfold ban_template, str_join_empty; cbn [foldr matches self __init__].
  destruct Hf as [Hf | [Hf | [s Hf]]]; rewrite Hf in *;
    mode_cases mode; unfold py_format; eval_parse; render_any g;
    (eexists; split; [reflexivity|]; split; [reflexivity|done]).
Qed.

(** X10. A match mode whose key the event data does not hold: with
    [matches], [ipmatches] or [ipjailmatches] configured and that key
    missing, [ban] raises [KeyError] for the key and opens no session, even
    though the address and the attempt count are there. *)
Theorem ban_needs_match_key k ip failures :
  mode = Some k →
  k ∈ ["matches"; "ipmatches"; "ipjailmatches"] →
  ev !! k = None →
  ev !! "ip" = Some ip →
  ev !! "failures" = Some (VInt failures) →
  run (ban w {| this := self; aInfo := ev |}).2
  = ([], Raise (Exn KeyError k)).
Proof.
  intros Hmode Hk Hnone Hip Hf.
  unfold ban, ban_message; cbn [fst snd this aInfo].
  fold merged.
  destruct getitem_context as (Gj & Gh & Gb).
  pose proof (getitem_event "ip" ltac:(done) ltac:(done) ltac:(done)) as Gip.
  pose proof (getitem_event "failures" ltac:(done) ltac:(done) ltac:(done))
    as Gf.
  rewrite Hip in Gip. rewrite Hf in Gf.
  assert (Gk : dict_getitem merged k = Raise (Exn KeyError k)).
  { rewrite !elem_of_cons, elem_of_nil in Hk.
    destruct Hk as [-> | [-> | [-> | []]]];
      by rewrite getitem_event, Hnone. }
  set (g := dict_getitem merged) in *. clearbody g.
  unfold py_format at 1. eval_parse. render_any g.
  unfold ban_template, str_join_empty; cbn [foldr matches self __init__].
  subst mode.
  rewrite !elem_of_cons, elem_of_nil in Hk.
  destruct Hk as [-> | [-> | [-> | []]]];
    unfold py_format; eval_parse; render_any g; reflexivity.
Qed.

(** X11. A second [ban] in the same environment, given the dictionary the
    first one filled in, changes it no further and composes the same
    message. *)
Theorem ban_twice_same_dict :
  let σ1 := (ban w {| this := self; aInfo := ev |}).1 in
  aInfo (ban w σ1).1 = aInfo σ1 ∧
  (ban_message w σ1).2 = (ban_message w {| this := self; aInfo := ev |}).2.
Proof.
  unfold ban, ban_message; cbn [fst snd this aInfo].
  unfold self. by rewrite !dict_update_again.
Qed.

(** X13. With the match mode unset, one of the three match modes, or any
    string that is not a key of [messages['ban']], and event data that holds
    the address, an integer attempt count and the key of the mode, [ban]
    hands [_sendMessage] the subject with jail, address and host, and the
    body made of the head, the section of the mode and the tail, every
    placeholder filled in; what the call does from there is what
    [_sendMessage] does with that message. *)
Theorem ban_sends_selected_message ip failures :
  ev !! "ip" = Some ip →
  ev !! "failures" = Some (VInt failures) →
  mode_key_present mode ev →
  mode ≠ Some "head" → mode ≠ Some "tail" →
  run (ban w {| this := self; aInfo := ev |}).2
  = run (_sendMessage self w
           (ban_subject_text (jail_name jail) ip (gethostname w))
           (head_text ip (getBanTime w) failures (jail_name jail)
              +:+ middle_text mode ev ip (jail_name jail)
              +:+ messages_ban_tail)).
Proof.
  intros Hip Hf Hkey Hhead Htail.
  exact (ban_run w {| this := self; aInfo := ev |} _
           (ban_message_selected jail name srv usr pwd sendername sender
              dest mode w ev ip failures Hip Hf Hkey Hhead Htail)).
Qed.

(** The dictionaries of two bans agree, after the update, on every key the
    formats of [ban] read, once the event data agree on the five keys that
    are not context values. *)
Lemma merged_agree (ev' : gmap string value) k :
  (∀ k, k ∈ ["ip"; "failures"; "matches"; "ipmatches"; "ipjailmatches"] →
        ev !! k = ev' !! k) →
  k ∈ ["jailname"; "hostname"; "bantime"; "ip"; "failures"; "matches";
       "ipmatches"; "ipjailmatches"] →
  dict_getitem merged k
  = dict_getitem (dict_update w ev' (message_values self)) k.
Proof.
  intros Hev Hk. unfold dict_getitem, merged, self.
  rewrite !elem_of_cons, elem_of_nil in Hk.
  destruct Hk as [-> | [-> | [-> | Hk]]].
  - by rewrite !merged_jailname.
  - by rewrite !merged_hostname.
  - by rewrite !merged_bantime.
  - assert (ev !! k = ev' !! k) as Hkk
      by (apply Hev; rewrite !elem_of_cons, elem_of_nil; tauto).
    destruct Hk as [-> | [-> | [-> | [-> | [-> | []]]]]];
      rewrite !merged_other by done; by rewrite Hkk.
Qed.

(** X12. The message of a ban depends on the event data through five keys
    only: [ip], [failures], [matches], [ipmatches] and [ipjailmatches]. Two
    dictionaries that agree on these give the same subject and body, or the
    same exception, whatever the mode and whatever else they hold, the keys
    [jailname], [hostname] and [bantime] included. *)
Theorem ban_reads_only_its_keys (ev' : gmap string value) :
  (∀ k, k ∈ ["ip"; "failures"; "matches"; "ipmatches"; "ipjailmatches"] →
        ev !! k = ev' !! k) →
  (ban_message w {| this := self; aInfo := ev |}).2
  = (ban_message w {| this := self; aInfo := ev' |}).2.
Proof.
  intros Hev. unfold ban_message; cbn [snd this aInfo]. fold merged.
  rewrite (py_format_ext _ (dict_getitem merged)
             (dict_getitem (dict_update w ev' (message_values self)))).
  - rewrite (py_format_ext (ban_template self) (dict_getitem merged)
               (dict_getitem (dict_update w ev' (message_values self))));
      [reflexivity|].
    intros k Hk. apply merged_agree; [done|]. by apply ban_template_keys in Hk.
  - intros k Hk. apply merged_agree; [done|].
    cbn in Hk. rewrite !elem_of_cons, elem_of_nil in Hk.
    destruct Hk as [-> | [-> | [-> | []]]]; event_in.
Qed.
End Ban_failures.

(** ** The further properties at the sample environments *)

Lemma ban_reads_only_its_keys_witness :
  (ban_message world_partial
     {| this := sample_action (Some "matches");
        aInfo := sample_event_matches |}).2
  = (ban_message world_partial
       {| this := sample_action (Some "matches");
          aInfo := sample_event_timed |}).2 ∧
  sample_event_matches ≠ sample_event_timed ∧
  ∃ message,
    (ban_message world_partial
       {| this := sample_action (Some "matches");
          aInfo := sample_event_timed |}).2 = Return message.
Proof.
  split; [|split].
  - apply (ban_reads_only_its_keys sample_jail "smtp" "localhost" None None
             "Fail2Ban" "fail2ban" "root@example.org, admin@example.org"
             (Some "matches") world_partial sample_event_matches
             sample_event_timed).
    intros k Hk.
    repeat (apply elem_of_cons in Hk as [->|Hk]; [reflexivity|]).
    by apply elem_of_nil in Hk.
  - intros H. apply (f_equal (lookup "time")) in H.
    vm_compute in H. discriminate H.
  - eexists. vm_compute. reflexivity.
Defined.

Lemma ban_sends_selected_message_witness :
  run (ban world_partial
         {| this := sample_action (Some "matches");
            aInfo := sample_event_matches |}).2
  = run (_sendMessage (sample_action (Some "matches")) world_partial
           (ban_subject_text "sshd" (VStr "10.0.0.5") "gateway")
           (head_text (VStr "10.0.0.5") 600 3 "sshd"
              +:+ middle_text (Some "matches") sample_event_matches
                    (VStr "10.0.0.5") "sshd"
              +:+ messages_ban_tail)).
Proof.
  apply (ban_sends_selected_message sample_jail "smtp" "localhost" None None
           "Fail2Ban" "fail2ban" "root@example.org, admin@example.org"
           (Some "matches") world_partial sample_event_matches
           (VStr "10.0.0.5") 3).
  - reflexivity.
  - reflexivity.
  - intros k Hk _. injection Hk as <-. eexists. reflexivity.
  - discriminate.
  - discriminate.
Defined.

Lemma authentication_failure_witness :
  let self := sample_action_login in
  let e := Exn SMTPAuthenticationError "535 authentication failed" in
  let out := run (_sendMessage self world_auth_rejected "subject" "text") in
  out.2 = Raise e ∧
  calls_of (out.1)
  = [ Connect (host self);
      Login (default "" (user self)) (default "" (password self));
      Quit ] ∧
  Log ERROR "Failed to authenticate with host '%s' user '%s'"
    [AStr (host self); AOptStr (user self)] ∈ out.1 ∧
  (∀ args, Log DEBUG "Email '%s' successfully sent" args ∉ out.1).
Proof.
  apply (authentication_failure sample_action_login world_auth_rejected
           "subject" "text" (220, "ready")
           (Exn SMTPAuthenticationError "535 authentication failed")).
  - reflexivity.
  - reflexivity.
  - reflexivity.
  - reflexivity.
  - exact I.
Defined.

Lemma send_failure_logged_witness :
  let self := sample_action_login in
  let e := Exn SMTPRecipientsRefused "550 no such user" in
  let out := run (_sendMessage self world_all_refused "subject" "text") in
  out.2 = Raise e ∧
  Log ERROR "Error sending mail to host '%s' from '%s' to '%s'"
    [AStr (host self); AStr (fromaddr self); AStr (toaddr self)] ∈ out.1 ∧
  (∀ args, Log DEBUG "Email '%s' successfully sent" args ∉ out.1).
Proof.
  apply (send_failure_logged sample_action_login world_all_refused
           "subject" "text" (220, "ready")
           (Exn SMTPRecipientsRefused "550 no such user")).
  - reflexivity.
  - intros _. by eexists.
  - reflexivity.
  - reflexivity.
  - discriminate.
  - discriminate.
  - exact I.
Defined.

Lemma delivered_but_teardown_fails_witness :
  let self := sample_action None in
  let e := Exn OSError "broken pipe" in
  let out := run (_sendMessage self world_quit_broken "subject" "text") in
  out.2 = Raise e ∧
  Called (Sendmail (fromaddr self) (str_split ", " (toaddr self))
            (as_string world_quit_broken
               (envelope self world_quit_broken "subject" "text")))
  ∈ out.1 ∧
  Log DEBUG "Email '%s' successfully sent" [AStr "subject"] ∈ out.1 ∧
  (∀ fmt args, Log ERROR fmt args ∉ out.1).
Proof.
  apply (delivered_but_teardown_fails (sample_action None) world_quit_broken
           "subject" "text" (Exn OSError "broken pipe")).
  - vm_compute. reflexivity.
  - reflexivity.
  - discriminate.
Defined.

Lemma ban_without_ip_witness :
  let r := ban world_partial
             {| this := sample_action None;
                aInfo := <["failures" := VInt 3]> ∅ |} in
  run (r.2) = ([], Raise (Exn KeyError "ip")) ∧
  aInfo (r.1)
  = <["bantime" := VInt 600]>
    (<["hostname" := VStr "gateway"]>
    (<["jailname" := VStr "sshd"]> (<["failures" := VInt 3]> ∅))).
Proof.
  apply (ban_without_ip sample_jail "smtp" "localhost" None None
           "Fail2Ban" "fail2ban" "root@example.org, admin@example.org"
           None world_partial (<["failures" := VInt 3]> ∅)).
  reflexivity.
Defined.

Lemma ban_rejects_missing_or_text_failures_witness :
  let ev := <["failures" := VStr "3"]> sample_event in
  ∃ e,
    run (ban world_partial
           {| this := sample_action (Some "matches"); aInfo := ev |}).2
    = ([], Raise e) ∧
    class e = match ev !! "failures" with
              | None => KeyError
              | Some _ => TypeError
              end ∧
    (ev !! "failures" = None → e = Exn KeyError "failures").
Proof.
  apply (ban_rejects_missing_or_text_failures sample_jail "smtp" "localhost"
           None None "Fail2Ban" "fail2ban"
           "root@example.org, admin@example.org" (Some "matches")
           world_partial (<["failures" := VStr "3"]> sample_event)
           (VStr "10.0.0.5")).
  - reflexivity.
  - right. right. exists "3". reflexivity.
Defined.

Lemma ban_needs_match_key_witness :
  run (ban world_partial
         {| this := sample_action (Some "ipmatches");
            aInfo := sample_event_matches |}).2
  = ([], Raise (Exn KeyError "ipmatches")).
Proof.
  apply (ban_needs_match_key sample_jail "smtp" "localhost" None None
           "Fail2Ban" "fail2ban" "root@example.org, admin@example.org"
           (Some "ipmatches") world_partial sample_event_matches
           "ipmatches" (VStr "10.0.0.5") 3).
  - reflexivity.
  - apply list_elem_of_further, list_elem_of_here.
  - reflexivity.
  - reflexivity.
  - reflexivity.
Defined.
